(** * h_slcand: the device lifecycle of the SLCAN daemon

    A shallow embedding of [src/h_slcand.c].  The program is one [main]
    that drives the kernel through a fixed sequence of system calls, one
    signal handler ([child_handler]) and the usage printer
    ([print_usage], which never returns).

    - C integers are [Z]; the 32-bit flag words of [struct termios2] are
      updated with [Z.land]/[Z.lor] against 32-bit masks, the narrowing
      of [long] to [unsigned int] is written out with [mod].
    - C strings are [string]; the carriage return is [CR].
    - The kernel is a record [world]: the line settings of the tty, the
      value it returns to every system call, the signals it delivers while
      the process sleeps, and the chronological trace of the calls issued.
    - [exit] and the default action of a signal stop the computation; they
      are the [Halt] outcomes of the monad [M].
    - Diagnostics ([syslogger], [perror], [fprintf], [printf], [openlog],
      [closelog]) neither touch the device nor influence control flow and
      are left out of the trace: a call, in what follows, is a call
      recorded in the trace.
    - [daemon] forks: [run] follows the process in which [main] goes on,
      and [launched_end] tells how the process that was launched ends. *)

From Stdlib Require Import ZArith List String Ascii Bool Lia.
Import ListNotations.

Local Open Scope string_scope.
Local Open Scope list_scope.
Local Open Scope Z_scope.

(** ** Constants *)

(** [<stdlib.h>] *)
Definition EXIT_SUCCESS : Z := 0.
Definition EXIT_FAILURE : Z := 1.

(** The length of the ttypath buffer *)
Definition TTYPATH_LENGTH : nat := 256.

(** UART flow control types *)
Definition FLOW_NONE : Z := 0.
Definition FLOW_HW : Z := 1.
Definition FLOW_SW : Z := 2.

(** [<asm-generic/termbits.h>]: octal 0002000, 0010000, 020000000000,
    0010017 and 0010000. *)
Definition IXON : Z := 0x400.
Definition IXOFF : Z := 0x1000.
Definition CRTSCTS : Z := 0x80000000.
Definition CBAUD : Z := 0x100F.
Definition BOTHER : Z := 0x1000.

(** [<linux/serial.h>]: bit 13 of the serial flags. *)
Definition ASYNC_LOW_LATENCY : Z := 0x2000.

(** [<linux/tty.h>] *)
Definition N_TTY : Z := 0.
Definition N_SLCAN : Z := 17.

(** [<net/if.h>]: [sizeof(ifr.ifr_newname)]. *)
Definition IFNAMSIZ : nat := 16.

(** [<signal.h>] *)
Definition SIGINT : Z := 2.
Definition SIGUSR1 : Z := 10.
Definition SIGALRM : Z := 14.
Definition SIGTERM : Z := 15.
Definition SIGCHLD : Z := 17.

(** [<limits.h>] on the LP64 Linux targets: [long] has 64 bits,
    [unsigned int] has 32. *)
Definition LONG_MAX : Z := 2 ^ 63 - 1.
Definition LONG_MIN : Z := - 2 ^ 63.
Definition UINT_WIDTH : Z := 32.

(** The carriage return that ends every adapter command. *)
Definition CR : string := String (ascii_of_nat 13) EmptyString.

(** ** Machine integers *)

(** Conversion to [unsigned int]. *)
Definition to_uint (z : Z) : Z := z mod 2 ^ UINT_WIDTH.

(** [x &= ~m] on a 32-bit flag word: the complement of the constant,
    converted to the unsigned type of the word. *)
Definition clear_bits (x m : Z) : Z := Z.land x (to_uint (Z.lnot m)).

(** [x |= m] *)
Definition set_bits (x m : Z) : Z := Z.lor x m.

(** A C condition: any nonzero [int] is true. *)
Definition truthy (z : Z) : bool := negb (z =? 0).

(** ** The line settings: [struct termios2] *)

Record termios2 : Type := Termios2 {
  c_iflag : Z;
  c_oflag : Z;
  c_cflag : Z;
  c_lflag : Z;
  c_line : Z;
  c_cc : list Z;
  c_ispeed : Z;
  c_ospeed : Z
}.

Definition with_iflag (t : termios2) (v : Z) : termios2 :=
  Termios2 v (c_oflag t) (c_cflag t) (c_lflag t) (c_line t) (c_cc t)
           (c_ispeed t) (c_ospeed t).

Definition with_cflag (t : termios2) (v : Z) : termios2 :=
  Termios2 (c_iflag t) (c_oflag t) v (c_lflag t) (c_line t) (c_cc t)
           (c_ispeed t) (c_ospeed t).

Definition with_speeds (t : termios2) (i o : Z) : termios2 :=
  Termios2 (c_iflag t) (c_oflag t) (c_cflag t) (c_lflag t) (c_line t)
           (c_cc t) i o.

(** Lines 254-268 of [main]: the settings assembled from the baseline the
    first TCGETS2 returned. *)
Definition reset_uart (tios : termios2) : termios2 :=
  let t1 := with_iflag tios (clear_bits (c_iflag tios) IXOFF) in
  with_cflag t1 (clear_bits (c_cflag t1) CRTSCTS).

Definition set_baud (tios : termios2) (uart_speed : Z) : termios2 :=
  let t1 := with_cflag tios (clear_bits (c_cflag tios) CBAUD) in
  let t2 := with_cflag t1 (set_bits (c_cflag t1) BOTHER) in
  with_speeds t2 uart_speed uart_speed.

Definition set_flow (tios : termios2) (flow_type : Z) : termios2 :=
  if flow_type =? FLOW_HW then
    with_cflag tios (set_bits (c_cflag tios) CRTSCTS)
  else if flow_type =? FLOW_SW then
    with_iflag tios (set_bits (c_iflag tios) (Z.lor IXON IXOFF))
  else tios.

Definition assemble_tios (tios : termios2) (uart_speed flow_type : Z)
  : termios2 :=
  set_flow (set_baud (reset_uart tios) uart_speed) flow_type.

(** Which flow-control mechanisms a configuration has switched on. *)
Definition flag_set (word mask : Z) : bool := negb (Z.land word mask =? 0).

Definition hw_flow_on (t : termios2) : bool := flag_set (c_cflag t) CRTSCTS.

Definition sw_flow_on (t : termios2) : bool :=
  flag_set (c_iflag t) (Z.lor IXON IXOFF).

(** ** Outcomes *)

(** How the process stops short of the final [return]. *)
Inductive halt : Type :=
| Exited (status : Z)       (* a call of exit() *)
| Killed (signum : Z)       (* default action of an untrapped signal *)
| Waiting.                  (* asleep in the big loop, no signal left *)

Inductive outcome (A : Type) : Type :=
| Ok (a : A)
| Halt (h : halt).

Arguments Ok {A} a.
Arguments Halt {A} h.

(** ** The command line *)

(** The locals of [main] that the option loop fills. *)
Record options : Type := Options {
  send_open : Z;
  send_close : Z;
  send_listen : Z;
  send_read_status_flags : Z;
  speed : option string;
  uart_speed_str : option string;
  uart_speed : Z;
  flow_type : Z;
  btr : option string;
  run_as_daemon : Z
}.

(** Initial values, lines 129-138. *)
Definition initial_options : options :=
  Options 0 0 0 0 None None 0 FLOW_NONE None 1.

(** What getopt hands to the loop body: the option character and
    [optarg] (empty for a flag).  An option getopt does not know arrives
    as ['?']. *)
Record cmdline : Type := Cmdline {
  cl_opts : list (ascii * string);
  cl_args : list string     (* argv[optind], argv[optind + 1], ... *)
}.

(** [strlen] of a C string. *)
Definition strlen (s : string) : Z := Z.of_nat (String.length s).

(** [strtol(s, NULL, 10)]: leading white space, an optional sign, then the
    longest run of decimal digits.  The second component tells whether
    errno was set (ERANGE, with the result clamped). *)
Definition isspace (c : ascii) : bool :=
  let n := Z.of_nat (nat_of_ascii c) in
  (n =? 32) || ((9 <=? n) && (n <=? 13)).

Definition digit_value (c : ascii) : option Z :=
  let n := Z.of_nat (nat_of_ascii c) in
  if (48 <=? n) && (n <=? 57) then Some (n - 48) else None.

Fixpoint skip_spaces (s : string) : string :=
  match s with
  | String c r => if isspace c then skip_spaces r else s
  | EmptyString => s
  end.

Fixpoint read_digits (s : string) (acc : Z) : Z :=
  match s with
  | String c r =>
      match digit_value c with
      | Some d => read_digits r (10 * acc + d)
      | None => acc
      end
  | EmptyString => acc
  end.

Definition strtol (s : string) : Z * bool :=
  let s1 := skip_spaces s in
  let '(negative, s2) :=
    match s1 with
    | String "-"%char r => (true, r)
    | String "+"%char r => (false, r)
    | _ => (false, s1)
    end in
  let magnitude := read_digits s2 0 in
  let v := if negative then - magnitude else magnitude in
  if LONG_MAX <? v then (LONG_MAX, true)
  else if v <? LONG_MIN then (LONG_MIN, true)
  else (v, false).

(** [print_usage] writes the help text and calls [exit(EXIT_FAILURE)]. *)
Definition print_usage {A : Type} : outcome A := Halt (Exited EXIT_FAILURE).

Definition with_send_open (o : options) (v : Z) : options :=
  Options v (send_close o) (send_listen o) (send_read_status_flags o)
          (speed o) (uart_speed_str o) (uart_speed o) (flow_type o) (btr o)
          (run_as_daemon o).

Definition with_send_close (o : options) (v : Z) : options :=
  Options (send_open o) v (send_listen o) (send_read_status_flags o)
          (speed o) (uart_speed_str o) (uart_speed o) (flow_type o) (btr o)
          (run_as_daemon o).

Definition with_send_listen (o : options) (v : Z) : options :=
  Options (send_open o) (send_close o) v (send_read_status_flags o)
          (speed o) (uart_speed_str o) (uart_speed o) (flow_type o) (btr o)
          (run_as_daemon o).

Definition with_send_read_status_flags (o : options) (v : Z) : options :=
  Options (send_open o) (send_close o) (send_listen o) v
          (speed o) (uart_speed_str o) (uart_speed o) (flow_type o) (btr o)
          (run_as_daemon o).

Definition with_speed (o : options) (v : string) : options :=
  Options (send_open o) (send_close o) (send_listen o)
          (send_read_status_flags o) (Some v) (uart_speed_str o)
          (uart_speed o) (flow_type o) (btr o) (run_as_daemon o).

Definition with_uart_speed (o : options) (s : string) (v : Z) : options :=
  Options (send_open o) (send_close o) (send_listen o)
          (send_read_status_flags o) (speed o) (Some s) v (flow_type o)
          (btr o) (run_as_daemon o).

Definition with_flow_type (o : options) (v : Z) : options :=
  Options (send_open o) (send_close o) (send_listen o)
          (send_read_status_flags o) (speed o) (uart_speed_str o)
          (uart_speed o) v (btr o) (run_as_daemon o).

Definition with_btr (o : options) (v : string) : options :=
  Options (send_open o) (send_close o) (send_listen o)
          (send_read_status_flags o) (speed o) (uart_speed_str o)
          (uart_speed o) (flow_type o) (Some v) (run_as_daemon o).

Definition with_run_as_daemon (o : options) (v : Z) : options :=
  Options (send_open o) (send_close o) (send_listen o)
          (send_read_status_flags o) (speed o) (uart_speed_str o)
          (uart_speed o) (flow_type o) (btr o) v.

(** The body of the [switch], lines 146-195. *)
Definition option_case (o : options) (opt : ascii) (optarg : string)
  : outcome options :=
  if Ascii.eqb opt "o" then Ok (with_send_open o 1)
  else if Ascii.eqb opt "c" then Ok (with_send_close o 1)
  else if Ascii.eqb opt "f" then Ok (with_send_read_status_flags o 1)
  else if Ascii.eqb opt "l" then Ok (with_send_listen o 1)
  else if Ascii.eqb opt "s" then
    if 1 <? strlen optarg then print_usage else Ok (with_speed o optarg)
  else if Ascii.eqb opt "S" then
    let '(v, errno) := strtol optarg in
    let u := to_uint v in
    if errno then print_usage
    else if 6000000 <? u then Halt (Exited EXIT_FAILURE)
    else Ok (with_uart_speed o optarg u)
  else if Ascii.eqb opt "t" then
    if String.eqb optarg "hw" then Ok (with_flow_type o FLOW_HW)
    else if String.eqb optarg "sw" then Ok (with_flow_type o FLOW_SW)
    else Halt (Exited EXIT_FAILURE)
  else if Ascii.eqb opt "b" then
    if 8 <? strlen optarg then print_usage else Ok (with_btr o optarg)
  else if Ascii.eqb opt "F" then Ok (with_run_as_daemon o 0)
  else print_usage.

(** The [while ((opt = getopt(...)) != -1)] loop, lines 145-196. *)
Fixpoint parse_options (opts : list (ascii * string)) (o : options)
  : outcome options :=
  match opts with
  | [] => Ok o
  | (opt, optarg) :: rest =>
      match option_case o opt optarg with
      | Ok o' => parse_options rest o'
      | Halt h => Halt h
      end
  end.

(** ** The kernel seen from the process *)

Inductive ioctl_req : Type :=
| TCGETS2
| TCSETS2 (tios : termios2)
| TIOCGSERIAL
| TIOCSSERIAL (flags : Z)
| TIOCSETD (ldisc : Z)
| SIOCGIFNAME
| SIOCSIFNAME (ifr_name ifr_newname : string).

Inductive syscall : Type :=
| Open (path : string)      (* O_RDWR | O_NONBLOCK | O_NOCTTY *)
| Ioctl (fd : Z) (req : ioctl_req)
| Write (fd : Z) (buf : string)
| Close (fd : Z)
| Socket                    (* PF_INET, SOCK_DGRAM, 0 *)
| Daemon                    (* daemon(0, 0) *)
| Signal (signum : Z)       (* signal(signum, child_handler) *)
| Sleep.                    (* sleep(1) *)

(** The kernel, the device behind the tty and the process globals.
    [k_ret n c] is the value the kernel returns when the [n]-th call of
    the run is [c]; [k_signals] lists, for each [sleep] of the big loop,
    the signals delivered before the loop looks at its flag again
    (signals that arrive before the loop is entered are not modelled);
    [k_stack] is what the uninitialised [snew.flags] happens to hold. *)
Record world : Type := World {
  tty_termios : termios2;
  tty_serial : Z;
  tty_ldisc : Z;
  k_ret : nat -> syscall -> Z;
  k_ifname : string;
  k_signals : list (list Z);
  k_stack : Z;
  k_trace : list syscall;
  handlers : list Z;        (* signals bound to child_handler *)
  slcand_running : Z;
  exit_code : Z
}.

Definition with_tty_termios (w : world) (t : termios2) : world :=
  World t (tty_serial w) (tty_ldisc w) (k_ret w) (k_ifname w) (k_signals w)
        (k_stack w) (k_trace w) (handlers w) (slcand_running w) (exit_code w).

Definition with_tty_serial (w : world) (f : Z) : world :=
  World (tty_termios w) f (tty_ldisc w) (k_ret w) (k_ifname w) (k_signals w)
        (k_stack w) (k_trace w) (handlers w) (slcand_running w) (exit_code w).

Definition with_tty_ldisc (w : world) (l : Z) : world :=
  World (tty_termios w) (tty_serial w) l (k_ret w) (k_ifname w) (k_signals w)
        (k_stack w) (k_trace w) (handlers w) (slcand_running w) (exit_code w).

Definition with_trace (w : world) (tr : list syscall) : world :=
  World (tty_termios w) (tty_serial w) (tty_ldisc w) (k_ret w) (k_ifname w)
        (k_signals w) (k_stack w) tr (handlers w) (slcand_running w)
        (exit_code w).

Definition with_handlers (w : world) (hs : list Z) : world :=
  World (tty_termios w) (tty_serial w) (tty_ldisc w) (k_ret w) (k_ifname w)
        (k_signals w) (k_stack w) (k_trace w) hs (slcand_running w)
        (exit_code w).

Definition with_running (w : world) (v : Z) : world :=
  World (tty_termios w) (tty_serial w) (tty_ldisc w) (k_ret w) (k_ifname w)
        (k_signals w) (k_stack w) (k_trace w) (handlers w) v (exit_code w).

Definition with_exit_code (w : world) (v : Z) : world :=
  World (tty_termios w) (tty_serial w) (tty_ldisc w) (k_ret w) (k_ifname w)
        (k_signals w) (k_stack w) (k_trace w) (handlers w)
        (slcand_running w) v.

(** What the process finds when it is started: a tty with some line
    settings, a kernel, and a schedule of signals.  After exec every
    signal has its default disposition and the statics are zero. *)
Record machine : Type := Machine {
  m_termios : termios2;
  m_serial : Z;
  m_ldisc : Z;
  m_ret : nat -> syscall -> Z;
  m_ifname : string;
  m_signals : list (list Z);
  m_stack : Z
}.

Definition boot (m : machine) : world :=
  World (m_termios m) (m_serial m) (m_ldisc m) (m_ret m) (m_ifname m)
        (m_signals m) (m_stack m) [] [] 0 0.

(** ** The monad of the process: state and early exit *)

Definition M (A : Type) : Type := world -> outcome A * world.

Definition ret {A : Type} (a : A) : M A := fun w => (Ok a, w).

Definition bind {A B : Type} (m : M A) (f : A -> M B) : M B :=
  fun w =>
    match m w with
    | (Ok a, w') => f a w'
    | (Halt h, w') => (Halt h, w')
    end.

Definition lift {A : Type} (r : outcome A) : M A := fun w => (r, w).

Definition exit {A : Type} (status : Z) : M A := lift (Halt (Exited status)).

Declare Scope proc_scope.
Delimit Scope proc_scope with proc.

Notation "x <- m ;; k" := (bind m (fun x => k))
  (at level 61, m at next level, right associativity) : proc_scope.
Notation "' p <- m ;; k" := (bind m (fun x => match x with p => k end))
  (at level 61, p pattern, m at next level, right associativity) : proc_scope.
Notation "m ;; k" := (bind m (fun _ => k))
  (at level 61, right associativity) : proc_scope.

Local Open Scope proc_scope.

(** The effect of a successful call on the tty. *)
Definition kernel_effect (c : syscall) (r : Z) (w : world) : world :=
  match c with
  | Ioctl _ (TCSETS2 t) => if r <? 0 then w else with_tty_termios w t
  | Ioctl _ (TIOCSSERIAL f) => if r <? 0 then w else with_tty_serial w f
  | Ioctl _ (TIOCSETD l) => if r <? 0 then w else with_tty_ldisc w l
  | _ => w
  end.

(** One system call: it is appended to the trace, the kernel picks the
    return value and, on success, the tty changes. *)
Definition sys (c : syscall) : M Z :=
  fun w =>
    let r := k_ret w (List.length (k_trace w)) c in
    (Ok r, kernel_effect c r (with_trace w (k_trace w ++ [c])%list)).

Definition zero_termios : termios2 := Termios2 0 0 0 0 0 [] 0 0.

(** [memset(&t, 0, sizeof(t)); ioctl(fd, TCGETS2, &t)] *)
Definition ioctl_TCGETS2 (fd : Z) : M (Z * termios2) :=
  fun w =>
    match sys (Ioctl fd TCGETS2) w with
    | (Ok r, w') =>
        (Ok (r, if r <? 0 then zero_termios else tty_termios w), w')
    | (Halt h, w') => (Halt h, w')
    end.

(** [struct serial_struct snew; ioctl(fd, TIOCGSERIAL, &snew)]: only
    [snew.flags] is looked at; it keeps the stack content on failure. *)
Definition ioctl_TIOCGSERIAL (fd : Z) : M (Z * Z) :=
  fun w =>
    match sys (Ioctl fd TIOCGSERIAL) w with
    | (Ok r, w') => (Ok (r, if r <? 0 then k_stack w else tty_serial w), w')
    | (Halt h, w') => (Halt h, w')
    end.

(** [ioctl(fd, SIOCGIFNAME, ifr.ifr_name)] on the zeroed static [ifr]. *)
Definition ioctl_SIOCGIFNAME (fd : Z) : M (Z * string) :=
  fun w =>
    match sys (Ioctl fd SIOCGIFNAME) w with
    | (Ok r, w') =>
        (Ok (r, if r <? 0 then EmptyString else k_ifname w), w')
    | (Halt h, w') => (Halt h, w')
    end.

(** [signal(signum, child_handler)]; the result is not looked at, and for
    SIGINT and SIGTERM the kernel always installs the handler. *)
Definition signal (signum : Z) : M unit :=
  sys (Signal signum) ;;
  fun w => (Ok tt, with_handlers w (signum :: handlers w)).

Definition set_running (v : Z) : M unit :=
  fun w => (Ok tt, with_running w v).

Definition get_exit_code : M Z := fun w => (Ok (exit_code w), w).

(** ** Signals *)

(** Lines 100-116. *)
Definition child_handler (signum : Z) : M unit :=
  if signum =? SIGUSR1 then
    (* exit parent *)
    exit EXIT_SUCCESS
  else if (signum =? SIGINT) || (signum =? SIGTERM)
          || (signum =? SIGALRM) || (signum =? SIGCHLD) then
    fun w => (Ok tt, with_running (with_exit_code w (128 + signum)) 0)
  else ret tt.

(** Default actions of signal(7): SIGCHLD, SIGCONT, the stop signals,
    SIGURG and SIGWINCH do not end the process; every other signal does. *)
Definition default_terminates (signum : Z) : bool :=
  negb ((signum =? 17) || (signum =? 18) || (signum =? 19) || (signum =? 20)
        || (signum =? 21) || (signum =? 22) || (signum =? 23)
        || (signum =? 28)).

Definition trapped (signum : Z) (w : world) : bool :=
  existsb (Z.eqb signum) (handlers w).

Definition deliver (signum : Z) : M unit :=
  fun w =>
    if trapped signum w then child_handler signum w
    else if default_terminates signum then (Halt (Killed signum), w)
    else (Ok tt, w).

Fixpoint deliver_all (batch : list Z) : M unit :=
  match batch with
  | [] => ret tt
  | s :: rest => deliver s ;; deliver_all rest
  end.

(** The Big Loop, line 366: [while (slcand_running) sleep(1);].  With no
    signal left to come the process sleeps for ever. *)
Fixpoint big_loop (pending : list (list Z)) : M unit :=
  fun w =>
    if truthy (slcand_running w) then
      match pending with
      | [] => (Halt Waiting, w)
      | batch :: later => (sys Sleep ;; deliver_all batch ;; big_loop later) w
      end
    else (Ok tt, w).

(** ** The stages of [main] *)

Definition devprefix : string := "/dev/".

(** Lines 211-215: [snprintf] into [ttypath] keeps at most
    [TTYPATH_LENGTH - 1] characters. *)
Definition make_ttypath (tty : string) : string :=
  if String.prefix devprefix tty
  then substring 0 (TTYPATH_LENGTH - 1) tty
  else substring 0 (TTYPATH_LENGTH - 1) (devprefix ++ tty)%string.

(** [if (write(fd, buf, strlen(buf)) <= 0) { perror; exit }] *)
Definition write_or_die (fd : Z) (buf : string) : M unit :=
  r <- sys (Write fd buf) ;;
  if r <=? 0 then exit EXIT_FAILURE else ret tt.

(** Lines 219-275.  Returns the descriptor and the saved settings
    [tios_old]. *)
Definition line_setup (o : options) (ttypath : string) : M (Z * termios2) :=
  fd <- sys (Open ttypath) ;;
  if fd <? 0 then exit EXIT_FAILURE else
  (* Configure baud rate *)
  '(r, tios) <- ioctl_TCGETS2 fd ;;
  if r <? 0 then exit EXIT_FAILURE else
  (* Save old configuration to later restore it *)
  '(r, tios_old) <- ioctl_TCGETS2 fd ;;
  if r <? 0 then exit EXIT_FAILURE else
  (* low latency flag; failures are only logged *)
  '(_, snew_flags) <- ioctl_TIOCGSERIAL fd ;;
  sys (Ioctl fd (TIOCSSERIAL (set_bits snew_flags ASYNC_LOW_LATENCY))) ;;
  (* apply changes *)
  r <- sys (Ioctl fd (TCSETS2
                        (assemble_tios tios (uart_speed o) (flow_type o)))) ;;
  if r <? 0 then (sys (Close fd) ;; exit EXIT_FAILURE) else
  ret (fd, tios_old).

(** Lines 277-313. *)
Definition protocol_primer (o : options) (fd : Z) : M unit :=
  match speed o with
  | Some s => write_or_die fd ("C" ++ CR ++ "S" ++ s ++ CR)%string
  | None => ret tt
  end ;;
  match btr o with
  | Some b => write_or_die fd ("C" ++ CR ++ "s" ++ b ++ CR)%string
  | None => ret tt
  end ;;
  (if truthy (send_read_status_flags o)
   then write_or_die fd ("F" ++ CR)%string else ret tt) ;;
  if truthy (send_listen o) then write_or_die fd ("L" ++ CR)%string
  else if truthy (send_open o) then write_or_die fd ("O" ++ CR)%string
  else ret tt.

(** Lines 316-349. *)
Definition discipline_attacher (fd : Z) (name : option string) : M unit :=
  (* set slcan like discipline on given tty *)
  r <- sys (Ioctl fd (TIOCSETD N_SLCAN)) ;;
  if r <? 0 then exit EXIT_FAILURE else
  (* retrieve the name of the created CAN netdevice *)
  '(r, ifr_name) <- ioctl_SIOCGIFNAME fd ;;
  if r <? 0 then exit EXIT_FAILURE else
  (* try to rename the created netdevice *)
  match name with
  | Some n =>
      s <- sys Socket ;;
      if s <? 0 then ret tt (* perror("socket for interface rename") *)
      else
        r <- sys (Ioctl s (SIOCSIFNAME ifr_name
                                       (substring 0 (IFNAMSIZ - 1) n))) ;;
        if r <? 0 then exit EXIT_FAILURE else
        sys (Close s) ;; ret tt
  | None => ret tt
  end.

(** Lines 351-366. *)
Definition run_supervisor (o : options) : M unit :=
  (if truthy (run_as_daemon o) then
     r <- sys Daemon ;;
     if truthy r then exit EXIT_FAILURE else ret tt
   else
     (* Trap signals that we expect to receive *)
     signal SIGINT ;; signal SIGTERM) ;;
  set_running 1 ;;
  fun w => big_loop (k_signals w) w.

(** Lines 368-395. *)
Definition teardown (o : options) (fd : Z) (tios_old : termios2) : M Z :=
  (* Reset line discipline *)
  r <- sys (Ioctl fd (TIOCSETD N_TTY)) ;;
  if r <? 0 then exit EXIT_FAILURE else
  (if truthy (send_close o) then write_or_die fd ("C" ++ CR)%string else ret tt) ;;
  (* Reset old rates *)
  r <- sys (Ioctl fd (TCSETS2 tios_old)) ;;
  if r <? 0 then exit EXIT_FAILURE else
  get_exit_code.

(** Lines 204-208: the tty and the optional interface name. *)
Definition positionals (cl : cmdline) : outcome (string * option string) :=
  match nth_error (cl_args cl) 0 with
  | None => print_usage
  | Some tty =>
      let name := nth_error (cl_args cl) 1 in
      match name with
      | Some n =>
          if Z.of_nat IFNAMSIZ - 1 <? strlen n then print_usage
          else Ok (tty, name)
      | None => Ok (tty, name)
      end
  end.

Definition main (cl : cmdline) : M Z :=
  o <- lift (parse_options (cl_opts cl) initial_options) ;;
  '(tty, name) <- lift (positionals cl) ;;
  '(fd, tios_old) <- line_setup o (make_ttypath tty) ;;
  protocol_primer o fd ;;
  discipline_attacher fd name ;;
  run_supervisor o ;;
  teardown o fd tios_old.

(** How a run ends. *)
Inductive ending : Type :=
| Returned (status : Z)     (* the final return of main *)
| Stopped (h : halt).

Definition run (cl : cmdline) (m : machine) : ending * world :=
  match main cl (boot m) with
  | (Ok status, w) => (Returned status, w)
  | (Halt h, w) => (Stopped h, w)
  end.

(** ** Observations on a run *)

(** How a run ends, the world it leaves, and the calls it made. *)
Definition run_end (cl : cmdline) (m : machine) : ending := fst (run cl m).

Definition run_world (cl : cmdline) (m : machine) : world := snd (run cl m).

Definition run_trace (cl : cmdline) (m : machine) : list syscall :=
  k_trace (snd (run cl m)).

(** The settings of the first TCSETS2 request of a trace: the one Line
    Setup issues. *)
Fixpoint first_TCSETS2 (tr : list syscall) : option termios2 :=
  match tr with
  | [] => None
  | Ioctl _ (TCSETS2 t) :: _ => Some t
  | _ :: rest => first_TCSETS2 rest
  end.

(** The calls by which the Run Supervisor shows in a trace. *)
Definition supervisor_call (c : syscall) : bool :=
  match c with
  | Daemon | Signal _ | Sleep => true
  | _ => false
  end.

Definition opens_device (c : syscall) : bool :=
  match c with
  | Open _ => true
  | _ => false
  end.




(** ** The primer in the words of the specification *)

(** The commands to send, in order, each without its terminator. *)
Definition primer_commands (o : options) : list string :=
  match speed o with
  | Some code => ["C"; "S" ++ code]%string
  | None => []
  end ++
  match btr o with
  | Some b => ["C"; "s" ++ b]%string
  | None => []
  end ++
  (if truthy (send_read_status_flags o) then ["F"] else []) ++
  (if truthy (send_listen o) then ["L"]
   else if truthy (send_open o) then ["O"]
   else []).

(** The bytes on the wire: every command followed by one carriage
    return. *)
Fixpoint wire (cmds : list string) : string :=
  match cmds with
  | [] => EmptyString
  | c :: rest => (c ++ CR ++ wire rest)%string
  end.

Fixpoint joined (bufs : list string) : string :=
  match bufs with
  | [] => EmptyString
  | b :: rest => (b ++ joined rest)%string
  end.

(** ** Sample machines *)

(** A kernel on which every call succeeds: descriptors 3 and 4, whole
    writes, zero from ioctl and daemon. *)
Definition obliging (n : nat) (c : syscall) : Z :=
  match c with
  | Open _ => 3
  | Write _ buf => strlen buf
  | Socket => 4
  | _ => 0
  end.

(** The same kernel, except that one call fails with -1. *)
Definition failing (bad : syscall -> bool) (n : nat) (c : syscall) : Z :=
  if bad c then -1 else obliging n c.

Definition is_attach (c : syscall) : bool :=
  match c with
  | Ioctl _ (TIOCSETD l) => l =? N_SLCAN
  | _ => false
  end.

Definition is_socket (c : syscall) : bool :=
  match c with
  | Socket => true
  | _ => false
  end.

(** The settings of a freshly opened serial port: ICRNL | IXON,
    OPOST | ONLCR, B38400 | CS8 | CREAD, the usual local flags. *)
Definition cooked : termios2 :=
  Termios2 0x500 0x5 0xBF 0x8A3B 0 [] 38400 38400.

Definition pc (signals : list (list Z)) : machine :=
  Machine cooked 0 N_TTY obliging "slcan0" signals 0.

Definition pc_failing (bad : syscall -> bool) (signals : list (list Z))
  : machine :=
  Machine cooked 0 N_TTY (failing bad) "slcan0" signals 0.

Definition flag (c : ascii) : ascii * string := (c, EmptyString).

(** Command lines used in the examples. *)
Definition foreground : cmdline := Cmdline [flag "F"] ["ttyUSB0"].


Definition renaming : cmdline := Cmdline [flag "F"] ["ttyUSB0"; "can0"].

Definition hw_request : cmdline :=
  Cmdline [("t"%char, "hw"); ("S"%char, "115200")] ["ttyUSB0"].

Definition wrapped_baud : cmdline :=
  Cmdline [("S"%char, "4294967296")] ["ttyUSB0"].

(** Every primer option at once: -o -c -f -l -s6 -b1234ABCD -F. *)
Definition all_flags : options :=
  Options 1 1 1 1 (Some "6") None 0 FLOW_NONE (Some "1234ABCD") 0.

Definition booted_pc : world := boot (pc [[SIGINT]]).



(** ** Predicates on computations and worlds *)

(** The handler table, the two globals and the signal schedule agree. *)
Record same_process (w w' : world) : Prop := SameProcess {
  sp_handlers : handlers w' = handlers w;
  sp_running : slcand_running w' = slcand_running w;
  sp_exit_code : exit_code w' = exit_code w;
  sp_signals : k_signals w' = k_signals w
}.

(** A computation is orderly when it leaves the process side alone, gives
    up only through [exit(EXIT_FAILURE)] and only appends to the trace. *)
Definition orderly {A : Type} (m : M A) : Prop :=
  forall w r w',
    m w = (r, w') ->
    same_process w w' /\
    (forall h, r = Halt h -> h = Exited EXIT_FAILURE) /\
    exists d, k_trace w' = k_trace w ++ d.

(** A computation only appends to the trace. *)
Definition extends {A : Type} (m : M A) : Prop :=
  forall w, exists d, k_trace (snd (m w)) = k_trace w ++ d.

(** The signals [main] traps in foreground mode. *)
Definition expected_signal (s : Z) : Prop := s = SIGINT \/ s = SIGTERM.


(** The invariant of the big loop: only expected signals are trapped, and
    once the flag is down the exit status is that of a delivered one. *)
Record supervised (pool : list Z) (w : world) : Prop := Supervised {
  sv_handlers : Forall expected_signal (handlers w);
  sv_status :
    slcand_running w = 0 ->
    exists s, In s pool /\ expected_signal s /\ exit_code w = 128 + s
}.

(** The ways of stopping that are not a call of [exit]. *)
Definition abnormal (h : halt) : Prop :=
  h = Waiting \/ exists s, h = Killed s.

(** The signals [child_handler] has a case for, SIGUSR1 apart. *)
Definition handled_signal (s : Z) : Prop :=
  s = SIGINT \/ s = SIGTERM \/ s = SIGALRM \/ s = SIGCHLD.

(** A computation that issues nothing but writes to [fd]: the buffers
    are [bs] when it completes, and it completes when the kernel accepts
    every nonempty write. *)
Definition writes_only (fd : Z) (m : M unit) (bs : list string) : Prop :=
  forall w,
    k_ret (snd (m w)) = k_ret w /\
    (exists bufs,
        k_trace (snd (m w)) = k_trace w ++ map (Write fd) bufs /\
        (fst (m w) = Ok tt -> bufs = bs)) /\
    ((forall n buf, buf <> EmptyString -> 0 < k_ret w n (Write fd buf)) ->
     fst (m w) = Ok tt).

(** The invalid arguments the option loop turns away. *)
Definition turned_away (opt : ascii) (optarg : string) : Prop :=
  (opt = "s"%char /\ 1 < strlen optarg) \/
  (opt = "b"%char /\ 8 < strlen optarg) \/
  (opt = "t"%char /\ optarg <> "hw" /\ optarg <> "sw") \/
  (opt = "S"%char /\
   exists v, strtol optarg = (v, false) /\ 6000000 < v < 2 ^ UINT_WIDTH).

(** The kernel refuses the attach, the name query or the rename request
    of the Discipline Attacher started in [w]. *)
Definition attacher_failure (fd : Z) (name : option string) (w : world)
  : Prop :=
  let n := List.length (k_trace w) in
  let attach := k_ret w n (Ioctl fd (TIOCSETD N_SLCAN)) in
  let query := k_ret w (S n) (Ioctl fd SIOCGIFNAME) in
  let s := k_ret w (S (S n)) Socket in
  attach < 0 \/
  (0 <= attach /\ query < 0) \/
  (0 <= attach /\ 0 <= query /\ 0 <= s /\
   exists nm,
     name = Some nm /\
     k_ret w (S (S (S n)))
       (Ioctl s (SIOCSIFNAME (k_ifname w) (substring 0 (IFNAMSIZ - 1) nm)))
     < 0).

(** The kernel attaches and names the device but refuses the socket for
    the rename. *)
Definition rename_socket_failure (fd : Z) (w : world) : Prop :=
  let n := List.length (k_trace w) in
  0 <= k_ret w n (Ioctl fd (TIOCSETD N_SLCAN)) /\
  0 <= k_ret w (S n) (Ioctl fd SIOCGIFNAME) /\
  k_ret w (S (S n)) Socket < 0.

(** ** Observations on the stages

    The definitions below describe what a stage is seen to do from the
    answers of the kernel: they are compared with the stages themselves
    in the properties that follow. *)

(** Every call a computation adds to the trace satisfies [P]. *)
Definition calls_satisfy {A : Type} (P : syscall -> Prop) (m : M A) : Prop :=
  forall w, exists d, k_trace (snd (m w)) = k_trace w ++ d /\ Forall P d.

(** A computation leaves the observation [f] of the world as it was. *)
Definition preserves {X A : Type} (f : world -> X) (m : M A) : Prop :=
  forall w, f (snd (m w)) = f w.

(** [char buf[20]]: the buffer in which [main] formats every command it
    writes. *)
Definition BUF_SIZE : Z := 20.

(** A written command fits the buffer together with its terminating NUL. *)
Definition fits_buf (c : syscall) : Prop :=
  match c with
  | Write _ buf => strlen buf + 1 <= BUF_SIZE
  | _ => True
  end.

(** The option letter occurs on the command line. *)
Definition has_opt (c : ascii) (opts : list (ascii * string)) : bool :=
  existsb (fun p => Ascii.eqb (fst p) c) opts.

(** The argument of the last occurrence of an option letter. *)
Fixpoint last_arg (c : ascii) (opts : list (ascii * string)) : option string :=
  match opts with
  | [] => None
  | (c', a) :: rest =>
      match last_arg c rest with
      | Some x => Some x
      | None => if Ascii.eqb c' c then Some a else None
      end
  end.

(** The flow type an accepted [-t] token stands for. *)
Definition flow_of_token (a : string) : Z :=
  if String.eqb a "hw" then FLOW_HW else FLOW_SW.

(** The locals after the option loop, read off the option list: a flag is
    set when its letter occurs, an argument is that of the last
    occurrence. *)
Definition options_of (opts : list (ascii * string)) : options :=
  Options (if has_opt "o" opts then 1 else 0)
          (if has_opt "c" opts then 1 else 0)
          (if has_opt "l" opts then 1 else 0)
          (if has_opt "f" opts then 1 else 0)
          (last_arg "s" opts)
          (last_arg "S" opts)
          (match last_arg "S" opts with
           | Some a => to_uint (fst (strtol a))
           | None => 0
           end)
          (match last_arg "t" opts with
           | Some a => flow_of_token a
           | None => FLOW_NONE
           end)
          (last_arg "b" opts)
          (if has_opt "F" opts then 0 else 1).

(** The same, started from arbitrary values of the locals. *)
Definition options_from (o0 : options) (opts : list (ascii * string))
  : options :=
  Options (if has_opt "o" opts then 1 else send_open o0)
          (if has_opt "c" opts then 1 else send_close o0)
          (if has_opt "l" opts then 1 else send_listen o0)
          (if has_opt "f" opts then 1 else send_read_status_flags o0)
          (match last_arg "s" opts with Some a => Some a | None => speed o0 end)
          (match last_arg "S" opts with
           | Some a => Some a
           | None => uart_speed_str o0
           end)
          (match last_arg "S" opts with
           | Some a => to_uint (fst (strtol a))
           | None => uart_speed o0
           end)
          (match last_arg "t" opts with
           | Some a => flow_of_token a
           | None => flow_type o0
           end)
          (match last_arg "b" opts with Some a => Some a | None => btr o0 end)
          (if has_opt "F" opts then 0 else run_as_daemon o0).

(** The check the option loop applies to one option. *)
Definition acceptable (opt : ascii) (optarg : string) : bool :=
  if Ascii.eqb opt "s" then strlen optarg <=? 1
  else if Ascii.eqb opt "b" then strlen optarg <=? 8
  else if Ascii.eqb opt "t" then
    String.eqb optarg "hw" || String.eqb optarg "sw"
  else if Ascii.eqb opt "S" then
    negb (snd (strtol optarg)) && (to_uint (fst (strtol optarg)) <=? 6000000)
  else
    Ascii.eqb opt "o" || Ascii.eqb opt "c" || Ascii.eqb opt "f"
    || Ascii.eqb opt "l" || Ascii.eqb opt "F".

(** The bounds the option loop enforces on the locals. *)
Record validated (o : options) : Prop := Validated {
  v_speed : forall s, speed o = Some s -> strlen s <= 1;
  v_btr : forall b, btr o = Some b -> strlen b <= 8;
  v_baud : 0 <= uart_speed o <= 6000000;
  v_flow : flow_type o = FLOW_NONE \/ flow_type o = FLOW_HW
           \/ flow_type o = FLOW_SW
}.

(** The option letters the loop accepts; every other letter reaches
    [print_usage]. *)
Definition known_option (c : ascii) : bool :=
  existsb (Ascii.eqb c)
    ["o"; "c"; "f"; "l"; "s"; "S"; "t"; "b"; "F"]%char.

(** The answers of the kernel to the four calls of Line Setup that are
    checked, when it is started in [w]. *)
Definition setup_open (path : string) (w : world) : Z :=
  k_ret w (List.length (k_trace w)) (Open path).

Definition setup_get1 (path : string) (w : world) : Z :=
  k_ret w (S (List.length (k_trace w))) (Ioctl (setup_open path w) TCGETS2).

Definition setup_get2 (path : string) (w : world) : Z :=
  k_ret w (S (S (List.length (k_trace w))))
        (Ioctl (setup_open path w) TCGETS2).

Definition setup_apply (o : options) (path : string) (w : world) : Z :=
  k_ret w (5 + List.length (k_trace w))%nat
        (Ioctl (setup_open path w)
               (TCSETS2 (assemble_tios (tty_termios w) (uart_speed o)
                                       (flow_type o)))).

(** Line Setup runs to its end: none of the four checked calls fails. *)
Definition setup_accepted (o : options) (path : string) (w : world) : bool :=
  (0 <=? setup_open path w) && (0 <=? setup_get1 path w)
  && (0 <=? setup_get2 path w) && (0 <=? setup_apply o path w).

(** The calls Line Setup makes, given the answers to the checked ones;
    [flags] is the argument of TIOCSSERIAL. *)
Definition setup_calls (o : options) (path : string) (w : world) (flags : Z)
  : list syscall :=
  let fd := setup_open path w in
  if setup_open path w <? 0 then [Open path]
  else if setup_get1 path w <? 0 then [Open path; Ioctl fd TCGETS2]
  else if setup_get2 path w <? 0 then
    [Open path; Ioctl fd TCGETS2; Ioctl fd TCGETS2]
  else
    [Open path; Ioctl fd TCGETS2; Ioctl fd TCGETS2; Ioctl fd TIOCGSERIAL;
     Ioctl fd (TIOCSSERIAL flags);
     Ioctl fd (TCSETS2 (assemble_tios (tty_termios w) (uart_speed o)
                                      (flow_type o)))]
    ++ (if setup_apply o path w <? 0 then [Close fd] else []).

(** The command Teardown writes when [-c] was given. *)
Definition close_command : string := ("C" ++ CR)%string.

(** The answers of the kernel to the calls of Teardown started in [w]. *)
Definition td_reset (fd : Z) (w : world) : Z :=
  k_ret w (List.length (k_trace w)) (Ioctl fd (TIOCSETD N_TTY)).

Definition td_close (fd : Z) (w : world) : Z :=
  k_ret w (S (List.length (k_trace w))) (Write fd close_command).

Definition td_restore (o : options) (fd : Z) (told : termios2) (w : world)
  : Z :=
  k_ret w (if truthy (send_close o) then S (S (List.length (k_trace w)))
           else S (List.length (k_trace w)))
        (Ioctl fd (TCSETS2 told)).

(** Teardown runs to its end: the reset and the restore do not fail, and
    the close command, if requested, is written with a positive count. *)
Definition teardown_accepted (o : options) (fd : Z) (told : termios2)
                             (w : world) : bool :=
  (0 <=? td_reset fd w)
  && (negb (truthy (send_close o)) || (0 <? td_close fd w))
  && (0 <=? td_restore o fd told w).

(** The calls Teardown makes, given the answers. *)
Definition teardown_calls (o : options) (fd : Z) (told : termios2) (w : world)
  : list syscall :=
  if td_reset fd w <? 0 then [Ioctl fd (TIOCSETD N_TTY)]
  else if truthy (send_close o) then
    if td_close fd w <=? 0
    then [Ioctl fd (TIOCSETD N_TTY); Write fd close_command]
    else [Ioctl fd (TIOCSETD N_TTY); Write fd close_command;
          Ioctl fd (TCSETS2 told)]
  else [Ioctl fd (TIOCSETD N_TTY); Ioctl fd (TCSETS2 told)].

(** The answers of the kernel to the calls of the Discipline Attacher
    started in [w], and the rename request it sends. *)
Definition att_attach (fd : Z) (w : world) : Z :=
  k_ret w (List.length (k_trace w)) (Ioctl fd (TIOCSETD N_SLCAN)).

Definition att_query (fd : Z) (w : world) : Z :=
  k_ret w (S (List.length (k_trace w))) (Ioctl fd SIOCGIFNAME).

Definition att_socket (w : world) : Z :=
  k_ret w (S (S (List.length (k_trace w)))) Socket.

Definition rename_request (n : string) (w : world) : syscall :=
  Ioctl (att_socket w)
        (SIOCSIFNAME (k_ifname w) (substring 0 (IFNAMSIZ - 1) n)).

Definition att_rename (n : string) (w : world) : Z :=
  k_ret w (S (S (S (List.length (k_trace w))))) (rename_request n w).

(** The calls the Discipline Attacher makes, given the answers. *)
Definition attacher_calls (fd : Z) (name : option string) (w : world)
  : list syscall :=
  if att_attach fd w <? 0 then [Ioctl fd (TIOCSETD N_SLCAN)]
  else
    [Ioctl fd (TIOCSETD N_SLCAN); Ioctl fd SIOCGIFNAME] ++
    (if att_query fd w <? 0 then []
     else match name with
          | None => []
          | Some n =>
              if att_socket w <? 0 then [Socket]
              else if att_rename n w <? 0 then [Socket; rename_request n w]
              else [Socket; rename_request n w; Close (att_socket w)]
          end).

(** A rename request names the interface the kernel reported and the
    second positional argument; a socket is created only when that
    argument is present. *)
Definition rename_of (ifn : string) (name : option string) (c : syscall)
  : Prop :=
  match c with
  | Ioctl _ (SIOCSIFNAME old new) => old = ifn /\ name = Some new
  | Socket => name <> None
  | _ => True
  end.

(** The Discipline Attacher runs to its end: attach and query do not
    fail, and a requested rename does not fail once its socket exists. *)
Definition attacher_accepted (fd : Z) (name : option string) (w : world)
  : bool :=
  (0 <=? att_attach fd w) && (0 <=? att_query fd w)
  && match name with
     | None => true
     | Some n => (att_socket w <? 0) || (0 <=? att_rename n w)
     end.

(** The rename calls of a Discipline Attacher that ran to its end. *)
Definition rename_calls (ifn : string) (name : option string)
                        (d : list syscall) : Prop :=
  match name with
  | None => d = []
  | Some n =>
      d = [Socket] \/
      exists s, d = [Socket; Ioctl s (SIOCSIFNAME ifn n); Close s]
  end.

(** * Properties *)

(** ** Flag words *)

Section FlagWords.

Variable x : Z.

Lemma to_uint_bit (z i : Z) :
  0 <= i ->
  Z.testbit (to_uint z) i = (i <? UINT_WIDTH) && Z.testbit z i.
Proof.
  intros Hi. unfold to_uint.
  destruct (i <? UINT_WIDTH) eqn:E.
  - apply Z.ltb_lt in E. now rewrite Z.mod_pow2_bits_low by lia.
  - apply Z.ltb_ge in E.
    rewrite Z.mod_pow2_bits_high; [reflexivity | unfold UINT_WIDTH in *; lia].
Qed.

Lemma clear_bits_bit (m i : Z) :
  0 <= i ->
  Z.testbit (clear_bits x m) i =
  Z.testbit x i && ((i <? UINT_WIDTH) && negb (Z.testbit m i)).
Proof.
  intros Hi. unfold clear_bits.
  now rewrite Z.land_spec, to_uint_bit, Z.lnot_spec.
Qed.

(** Clearing a mask leaves none of its bits. *)
Lemma clear_bits_land (m : Z) : Z.land (clear_bits x m) m = 0.
Proof.
  apply Z.bits_inj'. intros i Hi.
  rewrite Z.land_spec, clear_bits_bit, Z.bits_0 by assumption.
  destruct (Z.testbit x i), (i <? UINT_WIDTH), (Z.testbit m i); reflexivity.
Qed.

(** A one-bit mask tests that bit. *)
Lemma flag_set_bit (i : Z) :
  0 <= i -> flag_set x (2 ^ i) = Z.testbit x i.
Proof.
  intros Hi. unfold flag_set.
  assert (E : Z.land x (2 ^ i) = if Z.testbit x i then 2 ^ i else 0).
  { apply Z.bits_inj'. intros j Hj.
    rewrite Z.land_spec, Z.pow2_bits_eqb by assumption.
    destruct (Z.eqb_spec i j) as [->|Hne].
    - destruct (Z.testbit x j) eqn:Ex.
      + now rewrite Z.pow2_bits_true.
      + now rewrite Z.bits_0.
    - rewrite andb_false_r.
      destruct (Z.testbit x i).
      + now rewrite Z.pow2_bits_false.
      + now rewrite Z.bits_0. }
  rewrite E. destruct (Z.testbit x i); [|reflexivity].
  assert (0 < 2 ^ i) by (apply Z.pow_pos_nonneg; lia).
  destruct (Z.eqb_spec (2 ^ i) 0); [lia | reflexivity].
Qed.

End FlagWords.

(** The bit positions of the flow-control flags. *)
Lemma IXON_bit : IXON = 2 ^ 10.
Proof. reflexivity. Qed.

Lemma IXOFF_bit : IXOFF = 2 ^ 12.
Proof. reflexivity. Qed.

Lemma CRTSCTS_bit : CRTSCTS = 2 ^ 31.
Proof. reflexivity. Qed.

(** ** The assembled configuration *)

Section Assemble.

Variables (tios : termios2) (baud flow : Z).

Lemma assemble_speeds :
  c_ispeed (assemble_tios tios baud flow) = baud /\
  c_ospeed (assemble_tios tios baud flow) = baud.
Proof.
  unfold assemble_tios, set_flow.
  destruct (flow =? FLOW_HW); [|destruct (flow =? FLOW_SW)]; split; reflexivity.
Qed.

(** The baud field of the control flags selects BOTHER, the custom-baud
    mechanism, whatever the baseline held. *)
Lemma assemble_selects_BOTHER :
  Z.land (c_cflag (assemble_tios tios baud flow)) CBAUD = BOTHER.
Proof.
  unfold assemble_tios, set_flow, set_baud, reset_uart, set_bits.
  destruct (flow =? FLOW_HW); [|destruct (flow =? FLOW_SW)];
    cbn [c_cflag with_cflag with_iflag with_speeds];
    rewrite ?Z.land_lor_distr_l, clear_bits_land; reflexivity.
Qed.

(** Hardware flow control is on exactly when it was asked for. *)
Lemma assemble_hw :
  hw_flow_on (assemble_tios tios baud flow) = (flow =? FLOW_HW).
Proof.
  unfold hw_flow_on. rewrite CRTSCTS_bit, flag_set_bit by lia.
  unfold assemble_tios, set_flow, set_baud, reset_uart, set_bits.
  destruct (flow =? FLOW_HW); [|destruct (flow =? FLOW_SW)];
    cbn [c_cflag with_cflag with_iflag with_speeds];
    rewrite ?Z.lor_spec, !clear_bits_bit by lia;
    rewrite ?andb_false_r, ?orb_true_r; reflexivity.
Qed.

(** IXOFF is on exactly when software flow control was asked for. *)
Lemma assemble_ixoff :
  flag_set (c_iflag (assemble_tios tios baud flow)) IXOFF =
  negb (flow =? FLOW_HW) && (flow =? FLOW_SW).
Proof.
  rewrite IXOFF_bit, flag_set_bit by lia.
  unfold assemble_tios, set_flow, set_baud, reset_uart, set_bits.
  destruct (flow =? FLOW_HW); [|destruct (flow =? FLOW_SW)];
    cbn [c_iflag with_cflag with_iflag with_speeds];
    rewrite ?Z.lor_spec, !clear_bits_bit by lia;
    rewrite ?andb_false_r, ?orb_true_r; reflexivity.
Qed.

(** IXON is never cleared: it is on when the baseline had it, or when
    software flow control was asked for. *)
Lemma assemble_ixon :
  flag_set (c_iflag (assemble_tios tios baud flow)) IXON =
  flag_set (c_iflag tios) IXON || (negb (flow =? FLOW_HW) && (flow =? FLOW_SW)).
Proof.
  rewrite IXON_bit, !flag_set_bit by lia.
  unfold assemble_tios, set_flow, set_baud, reset_uart, set_bits.
  destruct (flow =? FLOW_HW); [|destruct (flow =? FLOW_SW)];
    cbn [c_iflag with_cflag with_iflag with_speeds];
    rewrite ?Z.lor_spec, !clear_bits_bit by lia;
    cbn [negb andb];
    change (Z.testbit IXOFF 10) with false;
    change (10 <? UINT_WIDTH) with true;
    rewrite ?orb_true_r, ?orb_false_r, ?andb_true_r; reflexivity.
Qed.

End Assemble.

(** ** Sequencing *)

Lemma bind_Ok {A B : Type} (m : M A) (f : A -> M B) w b w' :
  bind m f w = (Ok b, w') ->
  exists a w1, m w = (Ok a, w1) /\ f a w1 = (Ok b, w').
Proof.
  unfold bind. destruct (m w) as [[a|h] w1]; intros E.
  - now exists a, w1.
  - discriminate.
Qed.

(** ** Orderly computations

    A computation is orderly when it leaves the handler table, the two
    globals and the signal schedule alone, gives up only through
    [exit(EXIT_FAILURE)] and only appends to the trace.  Everything in
    [main] but the Run Supervisor is orderly. *)

Lemma same_process_trans w1 w2 w3 :
  same_process w1 w2 -> same_process w2 w3 -> same_process w1 w3.
Proof. intros [] []; split; congruence. Qed.

Lemma orderly_ret {A : Type} (a : A) : orderly (ret a).
Proof.
  intros w r w' E. injection E as <- <-.
  repeat split; [discriminate | exists []; now rewrite app_nil_r].
Qed.

Lemma orderly_failure {A : Type} : orderly (@exit A EXIT_FAILURE).
Proof.
  intros w r w' E. injection E as <- <-.
  repeat split; [congruence | exists []; now rewrite app_nil_r].
Qed.

Lemma sys_same_process c w r w' : sys c w = (r, w') -> same_process w w'.
Proof.
  unfold sys. intros E. injection E as _ <-.
  destruct c as [| fd [] | | | | | |]; cbn [kernel_effect];
    try destruct (_ <? 0); now split.
Qed.

Lemma sys_trace c w :
  k_trace (snd (sys c w)) = k_trace w ++ [c].
Proof.
  unfold sys. cbn [snd].
  destruct c as [| fd [] | | | | | |]; cbn [kernel_effect];
    try destruct (_ <? 0); reflexivity.
Qed.

Lemma orderly_sys c : orderly (sys c).
Proof.
  intros w r w' E. split; [now apply sys_same_process with c r|].
  split.
  - intros h ->. discriminate.
  - exists [c]. now rewrite <- sys_trace, E.
Qed.

Lemma orderly_bind {A B : Type} (m : M A) (f : A -> M B) :
  orderly m -> (forall a, orderly (f a)) -> orderly (bind m f).
Proof.
  intros Hm Hf w r w' E. unfold bind in E.
  destruct (m w) as [[a|h] w1] eqn:Em.
  - destruct (Hm _ _ _ Em) as (S1 & _ & d1 & T1).
    destruct (Hf a _ _ _ E) as (S2 & X2 & d2 & T2).
    split; [eapply same_process_trans; eassumption|].
    split; [assumption|].
    exists (d1 ++ d2). now rewrite T2, T1, app_assoc.
  - injection E as <- <-.
    destruct (Hm _ _ _ Em) as (S1 & X1 & T1).
    split; [assumption|split; [|assumption]].
    intros h' [= <-]. now apply X1.
Qed.

Lemma orderly_read {A : Type} (m : M Z) (g : Z -> world -> A) :
  orderly m ->
  orderly (fun w => match m w with
                    | (Ok r, w') => (Ok (r, g r w), w')
                    | (Halt h, w') => (Halt h, w')
                    end).
Proof.
  intros Hm w r w' E.
  destruct (m w) as [[a|h] w1] eqn:Em; injection E as <- <-;
    destruct (Hm _ _ _ Em) as (S1 & X1 & T1);
    (split; [assumption|split; [|assumption]]).
  - discriminate.
  - intros h' [= <-]. now apply X1.
Qed.

Ltac orderly_step :=
  first
    [ apply orderly_ret
    | apply orderly_failure
    | apply orderly_sys
    | apply (orderly_read _ (fun r w => if r <? 0 then _ else _))
    | apply orderly_bind; [| intros ?]
    | match goal with
      | |- orderly (match ?x with (_, _) => _ end) => destruct x
      | |- orderly (if ?b then _ else _) => destruct b
      | |- orderly (match ?x with Some _ => _ | None => _ end) => destruct x
      end ].

Ltac orderly := repeat orderly_step.

Lemma orderly_line_setup o path : orderly (line_setup o path).
Proof.
  unfold line_setup, ioctl_TCGETS2, ioctl_TIOCGSERIAL. orderly.
Qed.

Lemma orderly_protocol_primer o fd : orderly (protocol_primer o fd).
Proof. unfold protocol_primer, write_or_die. orderly. Qed.

Lemma orderly_discipline_attacher fd name :
  orderly (discipline_attacher fd name).
Proof. unfold discipline_attacher, ioctl_SIOCGIFNAME. orderly. Qed.

Lemma option_case_halts o opt optarg h :
  option_case o opt optarg = Halt h -> h = Exited EXIT_FAILURE.
Proof.
  unfold option_case, print_usage.
  repeat match goal with
         | |- context [if ?b then _ else _] => destruct b
         | |- context [let '(_, _) := ?p in _] => destruct p
         end; congruence.
Qed.

Lemma parse_options_halts opts : forall o h,
  parse_options opts o = Halt h -> h = Exited EXIT_FAILURE.
Proof.
  induction opts as [|[opt optarg] rest IH]; intros o h; cbn [parse_options].
  - discriminate.
  - destruct (option_case o opt optarg) as [o'|h'] eqn:E.
    + apply IH.
    + intros [= <-]. eapply option_case_halts, E.
Qed.

Lemma positionals_halts cl h :
  positionals cl = Halt h -> h = Exited EXIT_FAILURE.
Proof.
  unfold positionals, print_usage.
  destruct (nth_error (cl_args cl) 0); [|congruence].
  destruct (nth_error (cl_args cl) 1); [|congruence].
  destruct (_ <? _); congruence.
Qed.

(** ** Inverting the stages *)

Lemma sys_inv c w r w1 :
  sys c w = (Ok r, w1) ->
  r = k_ret w (List.length (k_trace w)) c /\
  w1 = kernel_effect c r (with_trace w (k_trace w ++ [c])).
Proof. unfold sys. intros [= <- <-]. now split. Qed.

Lemma write_or_die_Ok fd buf w w' :
  write_or_die fd buf w = (Ok tt, w') ->
  w' = with_trace w (k_trace w ++ [Write fd buf]) /\
  0 < k_ret w (List.length (k_trace w)) (Write fd buf).
Proof.
  unfold write_or_die. intros E.
  apply bind_Ok in E as (r & w1 & E1 & E).
  apply sys_inv in E1 as [-> ->].
  destruct (_ <=? 0) eqn:L; [discriminate|].
  injection E as <-. split; [reflexivity|]. now apply Z.leb_gt in L.
Qed.

Lemma teardown_Ok o fd told w st w' :
  teardown o fd told w = (Ok st, w') ->
  st = exit_code w /\ tty_termios w' = told /\ tty_ldisc w' = N_TTY /\
  exists pre,
    k_trace w' =
    k_trace w ++ Ioctl fd (TIOCSETD N_TTY) :: pre ++ [Ioctl fd (TCSETS2 told)].
Proof.
  unfold teardown. intros E.
  apply bind_Ok in E as (r & w1 & E1 & E).
  apply sys_inv in E1 as [-> ->].
  destruct (_ <? 0) eqn:L1; [discriminate|].
  apply bind_Ok in E as ([] & w2 & E2 & E).
  apply bind_Ok in E as (r3 & w3 & E3 & E).
  apply sys_inv in E3 as [-> ->].
  destruct (k_ret w2 _ _ <? 0) eqn:L3; [discriminate|].
  injection E as <- <-.
  cbn [kernel_effect] in *. rewrite L1 in *. rewrite L3.
  destruct (truthy (send_close o)).
  - apply write_or_die_Ok in E2 as [-> _]. cbn.
    repeat split. exists [Write fd ("C" ++ CR)]. now rewrite <- !app_assoc.
  - injection E2 as <-. cbn. repeat split. exists []. now rewrite <- !app_assoc.
Qed.

Lemma ioctl_TCGETS2_inv fd w r t w1 :
  ioctl_TCGETS2 fd w = (Ok (r, t), w1) ->
  r = k_ret w (List.length (k_trace w)) (Ioctl fd TCGETS2) /\
  t = (if r <? 0 then zero_termios else tty_termios w) /\
  w1 = with_trace w (k_trace w ++ [Ioctl fd TCGETS2]).
Proof.
  unfold ioctl_TCGETS2, sys. cbn. intros [= <- <- <-]. now repeat split.
Qed.

Lemma ioctl_TIOCGSERIAL_inv fd w r f w1 :
  ioctl_TIOCGSERIAL fd w = (Ok (r, f), w1) ->
  w1 = with_trace w (k_trace w ++ [Ioctl fd TIOCGSERIAL]) /\
  f = (if r <? 0 then k_stack w else tty_serial w).
Proof.
  unfold ioctl_TIOCGSERIAL, sys. cbn. intros [= <- <- <-]. now repeat split.
Qed.

Lemma line_setup_Ok o path w fd told w' :
  line_setup o path w = (Ok (fd, told), w') ->
  told = tty_termios w /\
  tty_termios w' = assemble_tios (tty_termios w) (uart_speed o) (flow_type o) /\
  exists f,
    k_trace w' = k_trace w ++
      [Open path; Ioctl fd TCGETS2; Ioctl fd TCGETS2; Ioctl fd TIOCGSERIAL;
       Ioctl fd (TIOCSSERIAL (set_bits f ASYNC_LOW_LATENCY));
       Ioctl fd (TCSETS2 (assemble_tios (tty_termios w) (uart_speed o)
                                        (flow_type o)))].
Proof.
  unfold line_setup. intros E.
  apply bind_Ok in E as (fd0 & w1 & E1 & E).
  apply sys_inv in E1 as [_ ->].
  destruct (fd0 <? 0); [discriminate|].
  apply bind_Ok in E as ([r1 tios] & w2 & E2 & E).
  apply ioctl_TCGETS2_inv in E2 as (_ & T1 & ->).
  destruct (r1 <? 0); [discriminate|].
  apply bind_Ok in E as ([r2 tios_old] & w3 & E3 & E).
  apply ioctl_TCGETS2_inv in E3 as (_ & T2 & ->).
  destruct (r2 <? 0); [discriminate|].
  apply bind_Ok in E as ([r3 fl] & w4 & E4 & E).
  apply ioctl_TIOCGSERIAL_inv in E4 as (-> & _).
  apply bind_Ok in E as (r5 & w5 & E5 & E).
  apply sys_inv in E5 as [_ ->].
  apply bind_Ok in E as (r6 & w6 & E6 & E).
  apply sys_inv in E6 as [_ ->].
  destruct (r6 <? 0) eqn:L6.
  { apply bind_Ok in E as (? & ? & _ & E). discriminate. }
  injection E as <- <- <-.
  cbn [kernel_effect] in *. rewrite L6.
  destruct (r5 <? 0); cbn; subst tios;
    (split; [assumption|split; [reflexivity|]]);
    exists fl; now rewrite <- !app_assoc.
Qed.

Lemma supervised_same_process pool w w' :
  same_process w w' -> supervised pool w -> supervised pool w'.
Proof.
  intros [H1 H2 H3 _] [J K]. split.
  - now rewrite H1.
  - rewrite H2, H3. exact K.
Qed.

Lemma child_handler_expected s w :
  expected_signal s ->
  child_handler s w = (Ok tt, with_running (with_exit_code w (128 + s)) 0).
Proof. intros [-> | ->]; reflexivity. Qed.

Lemma trapped_In s w : trapped s w = true -> In s (handlers w).
Proof.
  unfold trapped. intros H. apply existsb_exists in H as (x & Hx & E).
  apply Z.eqb_eq in E. now subst.
Qed.

Lemma deliver_supervised pool s w r w' :
  In s pool -> supervised pool w -> deliver s w = (r, w') ->
  (r = Ok tt /\ supervised pool w' /\ k_trace w' = k_trace w) \/
  r = Halt (Killed s).
Proof.
  intros Hs [J K] E. unfold deliver in E.
  destruct (trapped s w) eqn:T.
  - apply trapped_In in T.
    assert (X : expected_signal s) by (rewrite Forall_forall in J; auto).
    rewrite child_handler_expected in E by assumption.
    injection E as <- <-. left. repeat split; [exact J|].
    intros _. now exists s.
  - destruct (default_terminates s); injection E as <- <-.
    + now right.
    + left. now repeat split.
Qed.

Lemma deliver_all_supervised pool batch : forall w r w',
  incl batch pool -> supervised pool w -> deliver_all batch w = (r, w') ->
  (r = Ok tt /\ supervised pool w' /\ k_trace w' = k_trace w) \/
  exists h, r = Halt h /\ abnormal h.
Proof.
  induction batch as [|s rest IH]; intros w r w' Hin Hw E; cbn [deliver_all] in E.
  - injection E as <- <-. now left.
  - unfold bind in E. destruct (deliver s w) as [[[]|h] w1] eqn:D.
    + destruct (deliver_supervised pool _ _ _ _ (Hin s (or_introl eq_refl)) Hw D)
        as [(_ & Hw1 & T1) | ?]; [|discriminate].
      assert (Hrest : incl rest pool) by (intros x Hx; apply Hin; now right).
      destruct (IH w1 r w' Hrest Hw1 E) as [(-> & Hw' & T')|]; auto.
      left. split; [reflexivity|]. split; [assumption|]. congruence.
    + destruct (deliver_supervised pool _ _ _ _ (Hin s (or_introl eq_refl)) Hw D)
        as [(? & _) | [= ->]]; [discriminate|].
      injection E as <- <-. right. exists (Killed s). split; [reflexivity|].
      right. now exists s.
Qed.

Lemma big_loop_supervised pool pending : forall w r w',
  (forall b, In b pending -> incl b pool) -> supervised pool w ->
  big_loop pending w = (r, w') ->
  (r = Ok tt /\ supervised pool w' /\ slcand_running w' = 0 /\
   exists d, k_trace w' = k_trace w ++ d) \/
  (exists h, r = Halt h /\ abnormal h).
Proof.
  induction pending as [|batch later IH]; intros w r w' Hin Hw E;
    cbn [big_loop] in E; unfold truthy in E;
    destruct (Z.eqb_spec (slcand_running w) 0) as [R|R]; cbn [negb] in E.
  - injection E as <- <-. left. split; [reflexivity|]. split; [assumption|].
    split; [assumption|]. exists []. now rewrite app_nil_r.
  - injection E as <- <-. right. exists Waiting. split; [reflexivity|now left].
  - injection E as <- <-. left. split; [reflexivity|]. split; [assumption|].
    split; [assumption|]. exists []. now rewrite app_nil_r.
  - unfold bind in E.
    destruct (sys Sleep w) as [[r0|h0] w0] eqn:S0; [|discriminate].
    assert (T0 : k_trace w0 = k_trace w ++ [Sleep])
      by (now rewrite <- sys_trace, S0).
    apply sys_same_process in S0.
    assert (Hb : incl batch pool) by (apply Hin; now left).
    assert (Hw0 : supervised pool w0)
      by (eapply supervised_same_process; eassumption).
    destruct (deliver_all batch w0) as [[[]|h1] w1] eqn:D.
    + destruct (deliver_all_supervised pool batch w0 _ _ Hb Hw0 D)
        as [(_ & Hw1 & T1) | (h & [=] & _)].
      assert (Hlater : forall b, In b later -> incl b pool)
        by (intros b Hb'; apply Hin; now right).
      destruct (IH w1 r w' Hlater Hw1 E) as [(-> & Hw' & R' & d & T')|]; auto.
      left. split; [reflexivity|]. split; [assumption|].
      split; [assumption|]. exists ([Sleep] ++ d).
      now rewrite T', T1, T0, app_assoc.
    + injection E as <- <-.
      destruct (deliver_all_supervised pool batch w0 _ _ Hb Hw0 D)
        as [([=] & _) | (h & [= <-] & Hh)].
      right. now exists h1.
Qed.

Lemma orderly_extends {A : Type} (m : M A) : orderly m -> extends m.
Proof.
  intros H w. destruct (m w) as [r w'] eqn:E.
  now destruct (H _ _ _ E) as (_ & _ & T).
Qed.

Lemma extends_bind {A B : Type} (m : M A) (f : A -> M B) :
  extends m -> (forall a, extends (f a)) -> extends (bind m f).
Proof.
  intros Hm Hf w. unfold bind.
  destruct (Hm w) as [d1 T1]. destruct (m w) as [[a|h] w1]; cbn [snd] in *.
  - destruct (Hf a w1) as [d2 T2]. exists (d1 ++ d2).
    now rewrite T2, T1, app_assoc.
  - now exists d1.
Qed.

Lemma extends_silent {A : Type} (m : M A) :
  (forall w, k_trace (snd (m w)) = k_trace w) -> extends m.
Proof. intros H w. exists []. now rewrite app_nil_r. Qed.

Lemma child_handler_trace s w : k_trace (snd (child_handler s w)) = k_trace w.
Proof.
  unfold child_handler.
  destruct (s =? SIGUSR1); [reflexivity|].
  destruct (_ || _); reflexivity.
Qed.

Lemma deliver_trace s w : k_trace (snd (deliver s w)) = k_trace w.
Proof.
  unfold deliver. destruct (trapped s w); [apply child_handler_trace|].
  destruct (default_terminates s); reflexivity.
Qed.

Lemma extends_deliver_all batch : extends (deliver_all batch).
Proof.
  induction batch as [|s rest IH]; cbn [deliver_all].
  - now apply extends_silent.
  - apply extends_bind; [|intros _; exact IH].
    apply extends_silent, deliver_trace.
Qed.

Lemma extends_big_loop pending : extends (big_loop pending).
Proof.
  induction pending as [|batch later IH]; intros w; cbn [big_loop];
    destruct (truthy (slcand_running w));
    try (exists []; now rewrite app_nil_r).
  revert w. change (extends (sys Sleep ;; deliver_all batch ;; big_loop later)).
  apply extends_bind; [apply orderly_extends, orderly_sys|intros _].
  apply extends_bind; [apply extends_deliver_all|intros _; exact IH].
Qed.

Lemma extends_run_supervisor o : extends (run_supervisor o).
Proof.
  unfold run_supervisor, signal.
  apply extends_bind; [|intros _; apply extends_bind; [now apply extends_silent|]].
  - destruct (truthy (run_as_daemon o)).
    + apply orderly_extends. orderly.
    + repeat (apply extends_bind; [|intros ?]);
        try apply orderly_extends, orderly_sys; now apply extends_silent.
  - intros _ w. apply extends_big_loop.
Qed.

Lemma In_concat_incl (ll : list (list Z)) b :
  In b ll -> incl b (List.concat ll).
Proof. intros Hb x Hx. apply in_concat. now exists b. Qed.

Lemma run_supervisor_status o w r w' :
  handlers w = [] ->
  run_supervisor o w = (r, w') ->
  (r = Ok tt /\
   exists s, In s (List.concat (k_signals w)) /\ expected_signal s /\
             exit_code w' = 128 + s) \/
  (exists h, r = Halt h /\ (h = Exited EXIT_FAILURE \/ abnormal h)).
Proof.
  intros H0 E. unfold run_supervisor, signal in E.
  set (pool := List.concat (k_signals w)).
  assert (Hpool : forall b, In b (k_signals w) -> incl b pool)
    by (intros b; apply In_concat_incl).
  destruct (truthy (run_as_daemon o));
    unfold bind, sys, set_running, ret, exit, lift in E; cbn in E.
  - destruct (truthy _).
    + injection E as <- <-. right. eexists. split; [reflexivity|now left].
    + apply big_loop_supervised with (pool := pool) in E; [| assumption |].
      * destruct E as [(-> & [_ K] & R & _) | (h & -> & Hh)].
        -- left. split; [reflexivity|]. now apply K.
        -- right. exists h. split; [reflexivity|now right].
      * split; cbn; [rewrite H0; constructor | discriminate].
  - apply big_loop_supervised with (pool := pool) in E; [| assumption |].
    + destruct E as [(-> & [_ K] & R & _) | (h & -> & Hh)].
      * left. split; [reflexivity|]. now apply K.
      * right. exists h. split; [reflexivity|now right].
    + split; cbn; [| discriminate].
      rewrite H0. apply Forall_cons; [now right|].
      apply Forall_cons; [now left|]. constructor.
Qed.

Lemma lift_Ok {A : Type} (r : outcome A) w a w1 :
  lift r w = (Ok a, w1) -> r = Ok a /\ w1 = w.
Proof. unfold lift. now intros [= -> ->]. Qed.

Lemma orderly_get_exit_code : orderly get_exit_code.
Proof.
  intros w r w' E. injection E as <- <-.
  repeat split; [discriminate | exists []; now rewrite app_nil_r].
Qed.

Lemma orderly_teardown o fd told : orderly (teardown o fd told).
Proof.
  unfold teardown, write_or_die. orderly. apply orderly_get_exit_code.
Qed.

Lemma main_Ok cl w st w' :
  main cl w = (Ok st, w') ->
  exists o tty name fd told w1 w2 w3 w4,
    parse_options (cl_opts cl) initial_options = Ok o /\
    positionals cl = Ok (tty, name) /\
    line_setup o (make_ttypath tty) w = (Ok (fd, told), w1) /\
    protocol_primer o fd w1 = (Ok tt, w2) /\
    discipline_attacher fd name w2 = (Ok tt, w3) /\
    run_supervisor o w3 = (Ok tt, w4) /\
    teardown o fd told w4 = (Ok st, w').
Proof.
  unfold main. intros E.
  apply bind_Ok in E as (o & w0 & E0 & E). apply lift_Ok in E0 as [E0 ->].
  apply bind_Ok in E as ([tty name] & w0 & Ep & E).
  apply lift_Ok in Ep as [Ep ->].
  apply bind_Ok in E as ([fd told] & w1 & E1 & E).
  apply bind_Ok in E as ([] & w2 & E2 & E).
  apply bind_Ok in E as ([] & w3 & E3 & E).
  apply bind_Ok in E as ([] & w4 & E4 & E).
  now exists o, tty, name, fd, told, w1, w2, w3, w4.
Qed.

Lemma main_status cl w r w' :
  handlers w = [] ->
  main cl w = (r, w') ->
  match r with
  | Ok st =>
      exists s, In s (List.concat (k_signals w)) /\ expected_signal s /\
                st = 128 + s
  | Halt h => h = Exited EXIT_FAILURE \/ abnormal h
  end.
Proof.
  intros H0 E. unfold main, bind, lift in E.
  destruct (parse_options _ _) as [o|h] eqn:E0.
  2:{ injection E as <- <-. left. eapply parse_options_halts, E0. }
  destruct (positionals cl) as [[tty name]|h] eqn:Ep.
  2:{ injection E as <- <-. left. eapply positionals_halts, Ep. }
  destruct (line_setup _ _ w) as [[[fd told]|h] w1] eqn:E1.
  2:{ injection E as <- <-. left.
      now apply (orderly_line_setup _ _ _ _ _ E1). }
  destruct (orderly_line_setup _ _ _ _ _ E1) as (S1 & _).
  destruct (protocol_primer o fd w1) as [[[]|h] w2] eqn:E2.
  2:{ injection E as <- <-. left.
      now apply (orderly_protocol_primer _ _ _ _ _ E2). }
  destruct (orderly_protocol_primer _ _ _ _ _ E2) as (S2 & _).
  destruct (discipline_attacher fd name w2) as [[[]|h] w3] eqn:E3.
  2:{ injection E as <- <-. left.
      now apply (orderly_discipline_attacher _ _ _ _ _ E3). }
  destruct (orderly_discipline_attacher _ _ _ _ _ E3) as (S3 & _).
  assert (S : same_process w w3)
    by (eapply same_process_trans; [eapply same_process_trans|]; eassumption).
  destruct (run_supervisor o w3) as [[[]|h] w4] eqn:E4.
  2:{ injection E as <- <-.
      apply run_supervisor_status in E4 as [([=] & _) | (h' & [= <-] & Hh)];
        [assumption|].
      rewrite (sp_handlers _ _ S). exact H0. }
  apply run_supervisor_status in E4 as [(_ & s & Hs & Xs & Cs) | (h' & [=] & _)].
  2:{ rewrite (sp_handlers _ _ S). exact H0. }
  rewrite (sp_signals _ _ S) in Hs.
  destruct r as [st|h].
  - apply teardown_Ok in E as (-> & _). now exists s.
  - left. now apply (orderly_teardown _ _ _ _ _ _ E).
Qed.

(** ** The Protocol Primer *)

Lemma writes_only_ret fd : writes_only fd (ret tt) [].
Proof.
  intros w. cbn. repeat split. exists []. now rewrite app_nil_r.
Qed.

Lemma writes_only_write fd buf :
  buf <> EmptyString -> writes_only fd (write_or_die fd buf) [buf].
Proof.
  intros Hbuf w. unfold write_or_die, bind, sys, exit, lift, ret. cbn.
  destruct (Z.leb_spec (k_ret w (List.length (k_trace w)) (Write fd buf)) 0) as [L|L];
    cbn; (split; [reflexivity|split]).
  - exists [buf]. split; [reflexivity|discriminate].
  - intros H. specialize (H (List.length (k_trace w)) buf Hbuf). lia.
  - exists [buf]. now split.
  - reflexivity.
Qed.

Lemma writes_only_seq fd m1 m2 b1 b2 :
  writes_only fd m1 b1 -> writes_only fd m2 b2 ->
  writes_only fd (m1 ;; m2) (b1 ++ b2).
Proof.
  intros H1 H2 w. unfold bind.
  destruct (H1 w) as (R1 & (l1 & T1 & X1) & S1).
  destruct (m1 w) as [[[]|h] w1]; cbn [fst snd] in *.
  - destruct (H2 w1) as (R2 & (l2 & T2 & X2) & S2).
    split; [congruence|split].
    + exists (l1 ++ l2). split.
      * now rewrite T2, T1, map_app, app_assoc.
      * intros E. now rewrite X1, X2.
    + intros H. apply S2. rewrite R1. exact H.
  - split; [assumption|split].
    + exists l1. split; [assumption|discriminate].
    + exact S1.
Qed.

Lemma append_assoc' (a b c : string) : ((a ++ b) ++ c = a ++ b ++ c)%string.
Proof. induction a as [|x a IH]; cbn; [reflexivity|now rewrite IH]. Qed.

(** The buffers [protocol_primer] hands to write, joined in order, are the
    wire image of the requested commands. *)
Lemma protocol_primer_writes o fd :
  exists bs,
    writes_only fd (protocol_primer o fd) bs /\
    joined bs = wire (primer_commands o).
Proof.
  exists (match speed o with
          | Some s => ["C" ++ CR ++ "S" ++ s ++ CR]%string
          | None => []
          end ++
          match btr o with
          | Some b => ["C" ++ CR ++ "s" ++ b ++ CR]%string
          | None => []
          end ++
          (if truthy (send_read_status_flags o) then ["F" ++ CR]%string else []) ++
          (if truthy (send_listen o) then ["L" ++ CR]%string
           else if truthy (send_open o) then ["O" ++ CR]%string
           else [])).
  unfold protocol_primer, primer_commands. split.
  - repeat apply writes_only_seq;
      repeat match goal with
             | |- writes_only _ (match ?x with Some _ => _ | None => _ end) _ =>
                 destruct x
             | |- writes_only _ (if ?b then _ else _) _ => destruct b
             end;
      first [apply writes_only_write; discriminate | apply writes_only_ret].
  - destruct (speed o), (btr o), (truthy (send_read_status_flags o)),
      (truthy (send_listen o)), (truthy (send_open o));
      cbn; rewrite ?append_assoc'; reflexivity.
Qed.

Lemma obliging_writes w fd :
  k_ret w = obliging ->
  forall n buf, buf <> EmptyString -> 0 < k_ret w n (Write fd buf).
Proof.
  intros -> n [|c s] H; [contradiction|].
  cbn. unfold strlen. cbn [String.length]. lia.
Qed.

Lemma write_then fd buf (k : M unit) w :
  extends k ->
  exists rest,
    k_trace (snd ((write_or_die fd buf ;; k) w)) =
    k_trace w ++ Write fd buf :: rest.
Proof.
  intros Hk. unfold bind, write_or_die, sys, exit, lift, ret. cbn.
  destruct (_ <=? 0); cbn.
  - now exists [].
  - match goal with |- context [k ?w1] => destruct (Hk w1) as [d T] end.
    exists d. rewrite T. cbn. now rewrite <- app_assoc.
Qed.

(** C2.  For every combination of options the Protocol Primer issues
    nothing but writes to the descriptor; when it completes, the bytes
    written are exactly the requested commands in the fixed order (close
    and speed, close and bit timing, read status flags, then listen-only
    or else open), each followed by one carriage return; and it completes
    whenever the kernel accepts every nonempty write. *)
Theorem primer_emits_requested_commands o fd w :
  (exists bufs,
      k_trace (snd (protocol_primer o fd w)) = k_trace w ++ map (Write fd) bufs /\
      (fst (protocol_primer o fd w) = Ok tt ->
       joined bufs = wire (primer_commands o))) /\
  ((forall n buf, buf <> EmptyString -> 0 < k_ret w n (Write fd buf)) ->
   fst (protocol_primer o fd w) = Ok tt).
Proof.
  destruct (protocol_primer_writes o fd) as (bs & H & J).
  destruct (H w) as (_ & (bufs & T & X) & S).
  split; [|exact S].
  exists bufs. split; [exact T|]. intros E. now rewrite (X E).
Qed.

(** With every flag given, [L] goes out and [O] does not. *)
Lemma primer_emits_requested_commands_witness :
  (forall n buf, buf <> EmptyString -> 0 < k_ret booted_pc n (Write 3 buf)) /\
  joined [("C" ++ CR ++ "S6" ++ CR); ("C" ++ CR ++ "s1234ABCD" ++ CR);
     ("F" ++ CR); ("L" ++ CR)]%string = wire (primer_commands all_flags) /\
  fst (protocol_primer all_flags 3 booted_pc) = Ok tt.
Proof.
  pose proof (obliging_writes booted_pc 3 eq_refl) as H.
  destruct (primer_emits_requested_commands all_flags 3 booted_pc)
    as [(bufs & T & J) S].
  split; [exact H|]. split; [reflexivity|]. exact (S H).
Defined.

(** C8.  Whatever the character [c], the option loop accepts the speed
    argument made of [c] alone, the Protocol Primer starts by writing
    [C], return, [S], [c], return, and a run with that single option on
    an obliging kernel sends exactly these bytes to the device. *)
Theorem one_char_speed_accepted_verbatim (c : ascii) :
  (forall o rest,
      parse_options (("s"%char, String c "") :: rest) o =
      parse_options rest (with_speed o (String c ""))) /\
  (forall o fd w,
      speed o = Some (String c "") ->
      exists rest,
        k_trace (snd (protocol_primer o fd w)) =
        k_trace w ++ Write fd ("C" ++ CR ++ "S" ++ String c CR) :: rest) /\
  run_trace (Cmdline [("s"%char, String c "")] ["ttyUSB0"]) (pc []) =
    [Open "/dev/ttyUSB0"; Ioctl 3 TCGETS2; Ioctl 3 TCGETS2;
     Ioctl 3 TIOCGSERIAL; Ioctl 3 (TIOCSSERIAL ASYNC_LOW_LATENCY);
     Ioctl 3 (TCSETS2 (assemble_tios cooked 0 FLOW_NONE));
     Write 3 ("C" ++ CR ++ "S" ++ String c CR);
     Ioctl 3 (TIOCSETD N_SLCAN); Ioctl 3 SIOCGIFNAME; Daemon].
Proof.
  split; [|split].
  - reflexivity.
  - intros o fd w H. unfold protocol_primer. rewrite H.
    apply write_then. apply orderly_extends. unfold write_or_die. orderly.
  - reflexivity.
Qed.

(** The digit 9, outside the documented range 0..8, is sent as it is. *)
Lemma one_char_speed_accepted_verbatim_witness :
  speed (with_speed initial_options "9") = Some "9" /\
  exists rest,
    k_trace (snd (protocol_primer (with_speed initial_options "9") 3
                                  booted_pc)) =
    Write 3 ("C" ++ CR ++ "S9" ++ CR) :: rest.
Proof.
  split; [reflexivity|].
  exact (proj1 (proj2 (one_char_speed_accepted_verbatim "9"))
               (with_speed initial_options "9") 3 booted_pc eq_refl).
Defined.

(** ** Runs of [main] *)

Lemma extends_main_tail o fd name told :
  extends (protocol_primer o fd ;; discipline_attacher fd name ;;
           run_supervisor o ;; teardown o fd told).
Proof.
  apply extends_bind;
    [apply orderly_extends, orderly_protocol_primer|intros _].
  apply extends_bind;
    [apply orderly_extends, orderly_discipline_attacher|intros _].
  apply extends_bind; [apply extends_run_supervisor|intros _].
  apply orderly_extends, orderly_teardown.
Qed.

Lemma run_trace_main cl m : run_trace cl m = k_trace (snd (main cl (boot m))).
Proof.
  unfold run_trace, run. now destruct (main cl (boot m)) as [[st|h] w].
Qed.

Lemma main_unfold cl w :
  main cl w =
  match parse_options (cl_opts cl) initial_options with
  | Halt h => (Halt h, w)
  | Ok o =>
      match positionals cl with
      | Halt h => (Halt h, w)
      | Ok (tty, name) =>
          match line_setup o (make_ttypath tty) w with
          | (Halt h, w1) => (Halt h, w1)
          | (Ok (fd, told), w1) =>
              (protocol_primer o fd ;; discipline_attacher fd name ;;
               run_supervisor o ;; teardown o fd told) w1
          end
      end
  end.
Proof.
  unfold main. unfold bind at 1 2 3, lift.
  destruct (parse_options _ _); [|reflexivity].
  destruct (positionals cl) as [[tty name]|]; [|reflexivity].
  destruct (line_setup _ _ w) as [[[fd told]|] w1]; reflexivity.
Qed.

Lemma run_Returned cl m st :
  run_end cl m = Returned st -> main cl (boot m) = (Ok st, run_world cl m).
Proof.
  unfold run_end, run_world, run.
  destruct (main cl (boot m)) as [[st'|h] w]; cbn; [now intros [= ->]|discriminate].
Qed.

(** The calls of a run that reaches the final return. *)
Lemma main_returned_trace cl w st w' :
  main cl w = (Ok st, w') ->
  exists path fd f o mid,
    k_trace w' =
      k_trace w ++
      [Open path; Ioctl fd TCGETS2; Ioctl fd TCGETS2; Ioctl fd TIOCGSERIAL;
       Ioctl fd (TIOCSSERIAL f);
       Ioctl fd (TCSETS2 (assemble_tios (tty_termios w) (uart_speed o)
                                        (flow_type o)))] ++
      mid ++ [Ioctl fd (TCSETS2 (tty_termios w))] /\
    tty_termios w' = tty_termios w /\
    tty_ldisc w' = N_TTY.
Proof.
  intros E.
  apply main_Ok in E
    as (o & tty & name & fd & told & w1 & w2 & w3 & w4
        & _ & _ & E1 & E2 & E3 & E4 & E5).
  apply line_setup_Ok in E1 as (-> & _ & f & T1).
  apply orderly_protocol_primer in E2 as (_ & _ & d2 & T2).
  apply orderly_discipline_attacher in E3 as (_ & _ & d3 & T3).
  destruct (extends_run_supervisor o w3) as [d4 T4]. rewrite E4 in T4.
  cbn [snd] in T4.
  apply teardown_Ok in E5 as (_ & Ht & Hl & pre & T5).
  exists (make_ttypath tty), fd, (set_bits f ASYNC_LOW_LATENCY), o.
  exists (d2 ++ d3 ++ d4 ++ Ioctl fd (TIOCSETD N_TTY) :: pre).
  split; [|now split].
  rewrite T5, T4, T3, T2, T1. rewrite <- !app_assoc. cbn [app]. reflexivity.
Qed.

(** ** Line Setup *)

Lemma first_TCSETS2_app a b t :
  first_TCSETS2 a = Some t -> first_TCSETS2 (a ++ b) = Some t.
Proof.
  induction a as [|c a IH]; cbn; [discriminate|].
  destruct c as [| fd [] | | | | | |]; auto.
Qed.

(** Line Setup either gives up before any TCSETS2 or requests the
    assembled settings first. *)
Lemma line_setup_applies o path w :
  exists d,
    k_trace (snd (line_setup o path w)) = k_trace w ++ d /\
    (first_TCSETS2 d =
       Some (assemble_tios (tty_termios w) (uart_speed o) (flow_type o)) \/
     (first_TCSETS2 d = None /\ exists h, fst (line_setup o path w) = Halt h)).
Proof.
  unfold line_setup, ioctl_TCGETS2, ioctl_TIOCGSERIAL, bind, sys, exit, lift, ret.
  cbn.
  repeat match goal with
         | |- context [if ?x <? 0 then _ else _] => destruct (x <? 0) eqn:?
         end; cbn; rewrite <- ?app_assoc; cbn;
    eexists; (split; [reflexivity|]); cbn; eauto.
Qed.

Lemma no_S_keeps_uart_speed opts : forall o0 o,
  (forall a, ~ In ("S"%char, a) opts) ->
  parse_options opts o0 = Ok o -> uart_speed o = uart_speed o0.
Proof.
  induction opts as [|[opt optarg] rest IH]; intros o0 o HS E; cbn in E.
  - now injection E as <-.
  - destruct (option_case o0 opt optarg) as [o1|] eqn:E1; [|discriminate].
    rewrite (IH o1 o); [|intros a Ha; apply (HS a); now right|assumption].
    unfold option_case in E1.
    destruct (Ascii.eqb_spec opt "S") as [->|_].
    + exfalso. apply (HS optarg). now left.
    + repeat match type of E1 with
             | context [if ?b then _ else _] => destruct b
             end; try discriminate; now injection E1 as <-.
Qed.

Lemma run_first_TCSETS2 cl m o :
  parse_options (cl_opts cl) initial_options = Ok o ->
  first_TCSETS2 (run_trace cl m) = None \/
  first_TCSETS2 (run_trace cl m) =
    Some (assemble_tios (m_termios m) (uart_speed o) (flow_type o)).
Proof.
  intros E0. rewrite run_trace_main, main_unfold, E0.
  destruct (positionals cl) as [[tty name]|h]; [|now left].
  destruct (line_setup_applies o (make_ttypath tty) (boot m)) as (d & T & F).
  destruct (line_setup o (make_ttypath tty) (boot m)) as [[[fd told]|h] w1];
    cbn [fst snd] in *.
  - destruct F as [F | (_ & h & [=])].
    destruct (extends_main_tail o fd name told w1) as [d' T'].
    right. rewrite T', T. cbn [boot k_trace app].
    now apply first_TCSETS2_app.
  - cbn [boot k_trace app] in T. rewrite T.
    destruct F as [F | (F & _)]; [now right | now left].
Qed.

(** C9.  Without an -S option the settings Line Setup applies select the
    custom-baud mechanism (BOTHER in the baud field) and carry 0 as input
    and as output speed. *)
Theorem default_baud_zero_is_written cl m t :
  (forall a, ~ In ("S"%char, a) (cl_opts cl)) ->
  first_TCSETS2 (run_trace cl m) = Some t ->
  c_ispeed t = 0 /\ c_ospeed t = 0 /\ Z.land (c_cflag t) CBAUD = BOTHER.
Proof.
  intros HS Ht.
  destruct (parse_options (cl_opts cl) initial_options) as [o|h] eqn:E0.
  - destruct (run_first_TCSETS2 cl m o E0) as [F|F]; rewrite F in Ht;
      [discriminate|injection Ht as <-].
    rewrite (no_S_keeps_uart_speed _ _ _ HS E0). cbn [uart_speed initial_options].
    destruct (assemble_speeds (m_termios m) 0 (flow_type o)) as [-> ->].
    repeat split. apply assemble_selects_BOTHER.
  - rewrite run_trace_main, main_unfold, E0 in Ht. discriminate.
Qed.

(** The run [-o -c ttyUSB0] applies such settings. *)
Lemma default_baud_zero_is_written_witness :
  (forall a, ~ In ("S"%char, a) [flag "o"; flag "c"]) /\
  (exists t,
      first_TCSETS2 (run_trace (Cmdline [flag "o"; flag "c"] ["ttyUSB0"])
                               (pc [])) = Some t /\
      c_ispeed t = 0 /\ c_ospeed t = 0 /\ Z.land (c_cflag t) CBAUD = BOTHER).
Proof.
  assert (H : forall a, ~ In ("S"%char, a) [flag "o"; flag "c"]).
  { intros a [E|[E|[]]]; discriminate. }
  split; [exact H|].
  exists (assemble_tios cooked 0 FLOW_NONE). split; [reflexivity|].
  exact (default_baud_zero_is_written
           (Cmdline [flag "o"; flag "c"] ["ttyUSB0"]) (pc [])
           (assemble_tios cooked 0 FLOW_NONE) H eq_refl).
Defined.

(** C5, at the failing input.  On a tty whose settings have IXON, the run
    [-t hw -S 115200 ttyUSB0] applies settings with CRTSCTS and IXON both
    set: hardware and software flow control are on together. *)
Theorem hw_request_keeps_baseline_ixon :
  flag_set (c_iflag cooked) IXON = true /\
  first_TCSETS2 (run_trace hw_request (pc [])) =
    Some (assemble_tios cooked 115200 FLOW_HW) /\
  hw_flow_on (assemble_tios cooked 115200 FLOW_HW) = true /\
  flag_set (c_iflag (assemble_tios cooked 115200 FLOW_HW)) IXON = true /\
  sw_flow_on (assemble_tios cooked 115200 FLOW_HW) = true.
Proof. repeat split.
Qed.

(** ** Teardown and the exit status *)

(** C1, amended.  Every run that reaches the final return of [main] ends
    by reapplying, as its last recorded call, the settings the tty had when
    it was opened: the snapshot is read before the first TCSETS2, and the
    tty is left with exactly these settings. *)
Theorem teardown_restores_snapshot cl m st :
  run_end cl m = Returned st ->
  tty_termios (run_world cl m) = m_termios m /\
  exists path fd f applied mid,
    run_trace cl m =
      [Open path; Ioctl fd TCGETS2; Ioctl fd TCGETS2;
       Ioctl fd TIOCGSERIAL; Ioctl fd (TIOCSSERIAL f);
       Ioctl fd (TCSETS2 applied)] ++
      mid ++ [Ioctl fd (TCSETS2 (m_termios m))].
Proof.
  intros E. apply run_Returned in E.
  apply main_returned_trace in E as (path & fd & f & o & mid & T & Ht & _).
  split; [exact Ht|].
  exists path, fd, f. eexists. exists mid. exact T.
Qed.

(** A foreground run interrupted by SIGINT restores the settings. *)
Lemma teardown_restores_snapshot_witness :
  run_end foreground (pc [[SIGINT]]) = Returned 130 /\
  tty_termios (run_world foreground (pc [[SIGINT]])) = cooked.
Proof.
  split; [reflexivity|].
  exact (proj1 (teardown_restores_snapshot foreground (pc [[SIGINT]]) 130
                  eq_refl)).
Defined.

(** C1, counterexample.  When the attach of the line discipline fails the
    device has been opened and reconfigured, the process exits with
    status 1, and the saved settings are never reapplied. *)
Lemma failed_attach_leaves_device_changed :
  run_end foreground (pc_failing is_attach [[SIGINT]]) =
    Stopped (Exited EXIT_FAILURE) /\
  existsb opens_device (run_trace foreground (pc_failing is_attach [[SIGINT]]))
    = true /\
  tty_termios (run_world foreground (pc_failing is_attach [[SIGINT]]))
    = assemble_tios cooked 0 FLOW_NONE /\
  assemble_tios cooked 0 FLOW_NONE <> cooked /\
  ~ In (Ioctl 3 (TCSETS2 cooked))
       (run_trace foreground (pc_failing is_attach [[SIGINT]])).
Proof.
  split; [reflexivity|]. split; [reflexivity|]. split; [reflexivity|].
  split; [discriminate|].
  cbv. intuition discriminate.
Qed.

(** C10.  The handler either leaves the flag and the status alone, or
    clears the flag and sets the status to 128 plus the signal number in
    the same call; the wait loop therefore unblocks only with such a
    status, and a run that reaches the final return has status 128 plus
    the number of a handled signal that was delivered, never 0. *)
Theorem final_return_status_is_signal_status :
  (forall s w,
      match child_handler s w with
      | (Ok _, w') =>
          (slcand_running w' = slcand_running w /\ exit_code w' = exit_code w)
          \/ (handled_signal s /\ slcand_running w' = 0 /\
              exit_code w' = 128 + s)
      | (Halt h, w') => s = SIGUSR1 /\ h = Exited EXIT_SUCCESS
      end) /\
  (forall o w w',
      handlers w = [] ->
      run_supervisor o w = (Ok tt, w') ->
      exists s, handled_signal s /\ exit_code w' = 128 + s /\
                exit_code w' <> 0) /\
  (forall cl m st,
      run_end cl m = Returned st ->
      exists s, In s (List.concat (m_signals m)) /\ handled_signal s /\
                st = 128 + s /\ st <> 0).
Proof.
  split; [|split].
  - intros s w. unfold child_handler, handled_signal.
    destruct (Z.eqb_spec s SIGUSR1) as [->|_]; [now split|].
    destruct (Z.eqb_spec s SIGINT) as [->|_]; [cbn; right; auto|].
    destruct (Z.eqb_spec s SIGTERM) as [->|_]; [cbn; right; auto|].
    destruct (Z.eqb_spec s SIGALRM) as [->|_]; [cbn; right; auto|].
    destruct (Z.eqb_spec s SIGCHLD) as [->|_]; [cbn; right; auto 6|].
    cbn. now left.
  - intros o w w' H0 E.
    apply run_supervisor_status in E as [(_ & s & _ & X & C) | (h & [=] & _)];
      [|exact H0].
    exists s. rewrite C. unfold handled_signal.
    destruct X as [-> | ->]; (split; [auto|split; [reflexivity|discriminate]]).
  - intros cl m st E. unfold run_end, run in E.
    destruct (main cl (boot m)) as [r w'] eqn:E'.
    apply main_status in E'; [|reflexivity].
    destruct r as [st'|h]; cbn [fst] in E; [injection E as ->|discriminate].
    destruct E' as (s & Hs & X & ->). exists s. split; [exact Hs|].
    unfold handled_signal.
    destruct X as [-> | ->]; (split; [auto|split; [reflexivity|discriminate]]).
Qed.

(** A foreground run ended by SIGTERM returns 143. *)
Lemma final_return_status_is_signal_status_witness :
  run_end foreground (pc [[SIGTERM]]) = Returned 143 /\
  exists s, In s (List.concat [[SIGTERM]]) /\ handled_signal s /\
            143 = 128 + s /\ 143 <> 0.
Proof.
  split; [reflexivity|].
  exact (proj2 (proj2 final_return_status_is_signal_status) foreground
               (pc [[SIGTERM]]) 143 eq_refl).
Defined.

(** ** Signals in foreground mode *)



Lemma big_loop_done pending w :
  slcand_running w = 0 -> big_loop pending w = (Ok tt, w).
Proof. intros R. destruct pending; cbn; unfold truthy; now rewrite R. Qed.

Lemma big_loop_step batch later w :
  slcand_running w <> 0 ->
  big_loop (batch :: later) w =
  (sys Sleep ;; deliver_all batch ;; big_loop later) w.
Proof.
  intros R. cbn [big_loop]. unfold truthy.
  now destruct (Z.eqb_spec (slcand_running w) 0).
Qed.

(** Foreground mode up to the first look at the flag. *)
Lemma run_supervisor_foreground o w :
  run_as_daemon o = 0 ->
  run_supervisor o w =
  big_loop (k_signals w)
    (with_running
       (with_handlers
          (with_trace w (k_trace w ++ [Signal SIGINT; Signal SIGTERM]))
          (SIGTERM :: SIGINT :: handlers w)) 1).
Proof.
  intros Hfg. unfold run_supervisor. rewrite Hfg.
  unfold signal, set_running, bind, sys, ret, with_running, with_handlers,
    with_trace; cbn [truthy Z.eqb negb kernel_effect k_trace handlers k_signals
                     tty_termios tty_serial tty_ldisc k_ret k_ifname k_stack
                     slcand_running exit_code].
  now rewrite <- app_assoc.
Qed.









(** ** Validation of the command line *)

Lemma option_case_turned_away o opt optarg :
  turned_away opt optarg ->
  option_case o opt optarg = Halt (Exited EXIT_FAILURE).
Proof.
  unfold option_case, print_usage.
  intros [(-> & L) | [(-> & L) | [(-> & N1 & N2) | (-> & v & E & L1 & L2)]]]; cbn.
  - apply Z.ltb_lt in L. now rewrite L.
  - apply Z.ltb_lt in L. now rewrite L.
  - destruct (String.eqb_spec optarg "hw"); [contradiction|].
    destruct (String.eqb_spec optarg "sw"); [contradiction|]. reflexivity.
  - rewrite E. unfold to_uint. rewrite Z.mod_small by lia.
    apply Z.ltb_lt in L1. now rewrite L1.
Qed.

Lemma parse_options_turned_away opts : forall o opt optarg,
  In (opt, optarg) opts -> turned_away opt optarg ->
  parse_options opts o = Halt (Exited EXIT_FAILURE).
Proof.
  induction opts as [|[opt' arg'] rest IH]; intros o opt optarg HIn HT.
  - contradiction.
  - cbn [parse_options].
    destruct (option_case o opt' arg') as [o'|h] eqn:E.
    + destruct HIn as [[= -> ->]|HIn].
      * rewrite option_case_turned_away in E by assumption. discriminate.
      * eapply IH; eassumption.
    + now rewrite (option_case_halts _ _ _ _ E).
Qed.

(** Arguments the option loop or the name check turns away end the run
    with a failure status before any system call. *)
Lemma invalid_arguments_rejected_before_open cl m :
  (exists opt optarg, In (opt, optarg) (cl_opts cl) /\ turned_away opt optarg)
  \/ (exists name, nth_error (cl_args cl) 1 = Some name /\
                   Z.of_nat IFNAMSIZ - 1 < strlen name) ->
  run cl m = (Stopped (Exited EXIT_FAILURE), boot m).
Proof.
  intros H. unfold run. rewrite main_unfold.
  destruct (parse_options (cl_opts cl) initial_options) as [o|h] eqn:E0.
  - destruct H as [(opt & optarg & HIn & HT) | (name & Hn & L)].
    + rewrite (parse_options_turned_away _ _ _ _ HIn HT) in E0. discriminate.
    + unfold positionals. rewrite Hn.
      destruct (nth_error (cl_args cl) 0); [|reflexivity].
      apply Z.ltb_lt in L. now rewrite L.
  - now rewrite (parse_options_halts _ _ _ E0).
Qed.

(** C6, at the failing input.  [-S 4294967296] names a baud rate above
    6,000,000; strtol returns it without error, the conversion to
    unsigned int makes it 0, the bound check passes, and the run opens
    and configures the device. *)
Theorem wrapped_baud_is_accepted :
  strtol "4294967296" = (4294967296, false) /\
  6000000 < 4294967296 /\
  run_end wrapped_baud (pc []) = Stopped Waiting /\
  run_trace wrapped_baud (pc []) =
    [Open "/dev/ttyUSB0"; Ioctl 3 TCGETS2; Ioctl 3 TCGETS2;
     Ioctl 3 TIOCGSERIAL; Ioctl 3 (TIOCSSERIAL ASYNC_LOW_LATENCY);
     Ioctl 3 (TCSETS2 (assemble_tios cooked 0 FLOW_NONE));
     Ioctl 3 (TIOCSETD N_SLCAN); Ioctl 3 SIOCGIFNAME; Daemon].
Proof. repeat split.
Qed.

(** ** The Discipline Attacher *)

Lemma length_snoc {A : Type} (l : list A) (a : A) :
  List.length (l ++ [a]) = S (List.length l).
Proof. rewrite length_app. cbn. apply Nat.add_1_r. Qed.

(** C7, amended.  When the kernel refuses the attach of the discipline,
    the query of the interface name, or the rename request, the process
    exits with status 1 and what follows the Discipline Attacher is not
    run: no call of the Run Supervisor is made.  When it refuses the
    socket for the rename, the Discipline Attacher completes after these
    three calls and [main] goes on. *)
Theorem attach_query_rename_failures_are_fatal fd name w (k : M Z) :
  (attacher_failure fd name w ->
   fst ((discipline_attacher fd name ;; k) w) = Halt (Exited EXIT_FAILURE) /\
   exists d,
     k_trace (snd ((discipline_attacher fd name ;; k) w)) = k_trace w ++ d /\
     existsb supervisor_call d = false) /\
  (rename_socket_failure fd w ->
   forall nm, name = Some nm ->
   exists w1,
     discipline_attacher fd name w = (Ok tt, w1) /\
     (discipline_attacher fd name ;; k) w = k w1 /\
     k_trace w1 =
       k_trace w ++ [Ioctl fd (TIOCSETD N_SLCAN); Ioctl fd SIOCGIFNAME; Socket]).
Proof.
  unfold attacher_failure, rename_socket_failure.
  split.
  - intros H.
    unfold discipline_attacher, ioctl_SIOCGIFNAME, bind, sys, exit, lift, ret.
    cbn. rewrite ?length_snoc.
    destruct H as [A | [(A & Q) | (A & Q & S1 & nm & -> & R)]].
    + apply Z.ltb_lt in A. rewrite A. cbn. split; [reflexivity|].
      now exists [Ioctl fd (TIOCSETD N_SLCAN)].
    + apply Z.ltb_ge in A. rewrite A. cbn. rewrite ?length_snoc.
      apply Z.ltb_lt in Q. rewrite Q. cbn. split; [reflexivity|].
      exists [Ioctl fd (TIOCSETD N_SLCAN); Ioctl fd SIOCGIFNAME].
      now rewrite <- app_assoc.
    + apply Z.ltb_ge in A. rewrite A. cbn. rewrite ?length_snoc.
      apply Z.ltb_ge in Q. rewrite Q. cbn. rewrite ?length_snoc.
      apply Z.ltb_ge in S1. rewrite S1. cbn. rewrite ?length_snoc.
      apply Z.ltb_lt in R. cbn in R. rewrite R. cbn. split; [reflexivity|].
      eexists. rewrite <- !app_assoc. cbn [app]. split; reflexivity.
  - intros (A & Q & S1) nm ->.
    unfold discipline_attacher, ioctl_SIOCGIFNAME, bind, sys, exit, lift, ret.
    cbn. rewrite ?length_snoc.
    apply Z.ltb_ge in A. rewrite A. cbn. rewrite ?length_snoc.
    apply Z.ltb_ge in Q. rewrite Q. cbn. rewrite ?length_snoc.
    apply Z.ltb_lt in S1. rewrite S1. cbn.
    eexists. split; [reflexivity|]. split; [reflexivity|].
    cbn. now rewrite <- !app_assoc.
Qed.

(** A refused attach ends the run; a refused socket does not. *)
Lemma attach_query_rename_failures_are_fatal_witness :
  (attacher_failure 3 (Some "can0") (boot (pc_failing is_attach [])) /\
   fst ((discipline_attacher 3 (Some "can0") ;; ret 0)
          (boot (pc_failing is_attach []))) = Halt (Exited EXIT_FAILURE)) /\
  (rename_socket_failure 3 (boot (pc_failing is_socket [])) /\
   fst ((discipline_attacher 3 (Some "can0") ;; ret 0)
          (boot (pc_failing is_socket []))) = Ok 0).
Proof.
  split.
  - assert (H : attacher_failure 3 (Some "can0")
                  (boot (pc_failing is_attach []))) by (left; reflexivity).
    split; [exact H|].
    exact (proj1 (proj1 (attach_query_rename_failures_are_fatal
                           3 (Some "can0") (boot (pc_failing is_attach []))
                           (ret 0)) H)).
  - assert (H : rename_socket_failure 3 (boot (pc_failing is_socket []))).
    { unfold rename_socket_failure. cbn. lia. }
    split; [exact H|].
    destruct (proj2 (attach_query_rename_failures_are_fatal
                       3 (Some "can0") (boot (pc_failing is_socket []))
                       (ret 0)) H "can0" eq_refl) as (w1 & _ & E & _).
    now rewrite E.
Defined.

(** C7, counterexample.  With a rename requested and the socket refused,
    the run goes on into the Run Supervisor and ends, after SIGINT, with
    a completed Teardown and status 130; no rename is requested. *)
Lemma failed_rename_socket_is_survived :
  run_end renaming (pc_failing is_socket [[SIGINT]]) = Returned 130 /\
  run_trace renaming (pc_failing is_socket [[SIGINT]]) =
    [Open "/dev/ttyUSB0"; Ioctl 3 TCGETS2; Ioctl 3 TCGETS2;
     Ioctl 3 TIOCGSERIAL; Ioctl 3 (TIOCSSERIAL ASYNC_LOW_LATENCY);
     Ioctl 3 (TCSETS2 (assemble_tios cooked 0 FLOW_NONE));
     Ioctl 3 (TIOCSETD N_SLCAN); Ioctl 3 SIOCGIFNAME; Socket;
     Signal SIGINT; Signal SIGTERM; Sleep;
     Ioctl 3 (TIOCSETD N_TTY); Ioctl 3 (TCSETS2 cooked)] /\
  existsb supervisor_call
    (run_trace renaming (pc_failing is_socket [[SIGINT]])) = true.
Proof. repeat split.
Qed.

(** ** The device path *)

Lemma substring_length (s : string) : forall n,
  (String.length (substring 0 n s) <= n)%nat.
Proof.
  induction s as [|c s IH]; intros [|n]; cbn; try lia.
  specialize (IH n). lia.
Qed.

Lemma substring_all (s : string) : forall n,
  (String.length s <= n)%nat -> substring 0 n s = s.
Proof.
  induction s as [|c s IH]; intros [|n] H; cbn in *; try reflexivity; try lia.
  rewrite IH by lia. reflexivity.
Qed.

Lemma prefix_substring (p : string) : forall s n,
  String.prefix p s = true -> (String.length p <= n)%nat ->
  String.prefix p (substring 0 n s) = true.
Proof.
  induction p as [|a p IH]; intros s n H L.
  - now destruct (substring 0 n s).
  - destruct s as [|b s]; [discriminate|].
    destruct n as [|n]; [cbn in L; lia|].
    cbn in *. destruct (ascii_dec a b); [|discriminate].
    apply IH; [assumption|lia].
Qed.

Lemma prefix_append (p s : string) :
  String.prefix p (p ++ s)%string = true.
Proof.
  induction p as [|a p IH]; cbn; [now destruct s|].
  destruct (ascii_dec a a); [assumption|contradiction].
Qed.

Lemma length_append' (a b : string) :
  String.length (a ++ b)%string = (String.length a + String.length b)%nat.
Proof. induction a as [|c a IH]; cbn; [reflexivity|now rewrite IH]. Qed.

(** X1.  The path handed to [open] always starts with [/dev/] and is
    shorter than [TTYPATH_LENGTH], whatever the tty argument; preparing
    it twice changes nothing.  A tty argument that already starts with
    [/dev/] and fits is taken as it is; any other argument is prefixed
    with [/dev/], entirely when the result fits. *)
Theorem ttypath_is_normalised tty :
  String.prefix devprefix (make_ttypath tty) = true /\
  (String.length (make_ttypath tty) < TTYPATH_LENGTH)%nat /\
  make_ttypath (make_ttypath tty) = make_ttypath tty /\
  (String.prefix devprefix tty = true ->
   (String.length tty < TTYPATH_LENGTH)%nat -> make_ttypath tty = tty) /\
  (String.prefix devprefix tty = false ->
   (String.length devprefix + String.length tty < TTYPATH_LENGTH)%nat ->
   make_ttypath tty = (devprefix ++ tty)%string).
Proof.
  assert (P : String.prefix devprefix (make_ttypath tty) = true).
  { unfold make_ttypath. destruct (String.prefix devprefix tty) eqn:E.
    - apply prefix_substring; [assumption|cbn; lia].
    - apply prefix_substring; [apply prefix_append|cbn; lia]. }
  assert (L : (String.length (make_ttypath tty) <= TTYPATH_LENGTH - 1)%nat).
  { unfold make_ttypath. destruct (String.prefix devprefix tty);
      apply substring_length. }
  split; [exact P|]. split; [unfold TTYPATH_LENGTH in *; lia|]. split.
  - unfold make_ttypath at 1. rewrite P. now apply substring_all.
  - split.
    + intros E H. unfold make_ttypath. rewrite E. apply substring_all.
      unfold TTYPATH_LENGTH in *. lia.
    + intros E H. unfold make_ttypath. rewrite E. apply substring_all.
      rewrite length_append'. unfold TTYPATH_LENGTH in *. lia.
Qed.

(** Both forms of the argument name the same device. *)
Lemma ttypath_is_normalised_witness :
  make_ttypath "/dev/ttyUSB0" = "/dev/ttyUSB0" /\
  make_ttypath "ttyUSB0" = "/dev/ttyUSB0".
Proof.
  destruct (ttypath_is_normalised "/dev/ttyUSB0") as (_ & _ & _ & A & _).
  destruct (ttypath_is_normalised "ttyUSB0") as (_ & _ & _ & _ & B).
  split.
  - apply A; [reflexivity|]. unfold TTYPATH_LENGTH. cbn. lia.
  - apply B; [reflexivity|]. unfold TTYPATH_LENGTH. cbn. lia.
Defined.

(** ** Properties of the calls of a computation *)

Section CallsSatisfy.

Variable P : syscall -> Prop.

Lemma cs_silent {A : Type} (m : M A) :
  (forall w, k_trace (snd (m w)) = k_trace w) -> calls_satisfy P m.
Proof. intros H w. exists []. rewrite app_nil_r. now split. Qed.

Lemma cs_ret {A : Type} (a : A) : calls_satisfy P (ret a).
Proof. now apply cs_silent. Qed.

Lemma cs_exit {A : Type} (st : Z) : calls_satisfy P (@exit A st).
Proof. now apply cs_silent. Qed.

Lemma cs_sys c : P c -> calls_satisfy P (sys c).
Proof.
  intros Hc w. exists [c]. split; [apply sys_trace|]. now constructor.
Qed.

Lemma cs_bind {A B : Type} (m : M A) (f : A -> M B) :
  calls_satisfy P m -> (forall a, calls_satisfy P (f a)) ->
  calls_satisfy P (bind m f).
Proof.
  intros Hm Hf w. unfold bind.
  destruct (Hm w) as (d1 & T1 & F1).
  destruct (m w) as [[a|h] w1]; cbn [snd] in *.
  - destruct (Hf a w1) as (d2 & T2 & F2). exists (d1 ++ d2). split.
    + now rewrite T2, T1, app_assoc.
    + apply Forall_app. now split.
  - now exists d1.
Qed.

Lemma cs_read {A : Type} (m : M Z) (g : Z -> world -> A) :
  calls_satisfy P m ->
  calls_satisfy P (fun w => match m w with
                            | (Ok r, w') => (Ok (r, g r w), w')
                            | (Halt h, w') => (Halt h, w')
                            end).
Proof.
  intros Hm w. destruct (Hm w) as (d & T & F).
  exists d. split; [|exact F]. now destruct (m w) as [[r|h] w'].
Qed.

Lemma cs_deliver_all batch : calls_satisfy P (deliver_all batch).
Proof.
  induction batch as [|s rest IH]; cbn [deliver_all]; [apply cs_ret|].
  apply cs_bind; [|intros _; exact IH]. apply cs_silent, deliver_trace.
Qed.

Lemma cs_big_loop pending : P Sleep -> calls_satisfy P (big_loop pending).
Proof.
  intros HS.
  induction pending as [|batch later IH]; intros w; cbn [big_loop];
    destruct (truthy (slcand_running w));
    try (exists []; rewrite app_nil_r; now split).
  revert w. change (calls_satisfy P (sys Sleep ;; deliver_all batch ;; big_loop later)).
  apply cs_bind; [now apply cs_sys|intros _].
  apply cs_bind; [apply cs_deliver_all|intros _; exact IH].
Qed.

End CallsSatisfy.

Ltac cs_step side :=
  first
    [ apply cs_ret
    | apply cs_exit
    | apply cs_sys; side
    | apply (cs_read _ _ (fun r w => if r <? 0 then _ else _))
    | apply cs_bind; [| intros ?]
    | apply cs_big_loop; side
    | apply cs_silent; intros ?; reflexivity
    | match goal with
      | |- calls_satisfy _ (match ?x with (_, _) => _ end) => destruct x
      | |- calls_satisfy _ (if ?b then _ else _) => destruct b
      | |- calls_satisfy _ (match ?x with Some _ => _ | None => _ end) =>
          destruct x eqn:?
      | |- calls_satisfy _ (fun w => big_loop (k_signals w) w) =>
          let w := fresh "w" in intros w
      end ].

Ltac cs side := repeat (cs_step side).

Lemma cs_line_setup_fits o path : calls_satisfy fits_buf (line_setup o path).
Proof.
  unfold line_setup, ioctl_TCGETS2, ioctl_TIOCGSERIAL. cs ltac:(exact I).
Qed.

Lemma cs_discipline_attacher_fits fd name :
  calls_satisfy fits_buf (discipline_attacher fd name).
Proof.
  unfold discipline_attacher, ioctl_SIOCGIFNAME. cs ltac:(exact I).
Qed.

Lemma cs_run_supervisor_fits o : calls_satisfy fits_buf (run_supervisor o).
Proof.
  unfold run_supervisor, signal, set_running. cs ltac:(exact I).
Qed.

(** ** The option loop *)

Lemma options_eta o :
  o = Options (send_open o) (send_close o) (send_listen o)
              (send_read_status_flags o) (speed o) (uart_speed_str o)
              (uart_speed o) (flow_type o) (btr o) (run_as_daemon o).
Proof. now destruct o. Qed.

Lemma option_case_Ok o opt optarg o1 :
  option_case o opt optarg = Ok o1 ->
  o1 = options_from o [(opt, optarg)].
Proof.
  unfold option_case, print_usage, options_from, has_opt, flow_of_token.
  cbn [existsb last_arg fst orb].
  destruct (Ascii.eqb_spec opt "o") as [->|_]; [intros [= <-]; reflexivity|].
  destruct (Ascii.eqb_spec opt "c") as [->|_]; [intros [= <-]; reflexivity|].
  destruct (Ascii.eqb_spec opt "f") as [->|_]; [intros [= <-]; reflexivity|].
  destruct (Ascii.eqb_spec opt "l") as [->|_]; [intros [= <-]; reflexivity|].
  destruct (Ascii.eqb_spec opt "s") as [->|_].
  { destruct (1 <? strlen optarg); [discriminate|]. intros [= <-]. reflexivity. }
  destruct (Ascii.eqb_spec opt "S") as [->|_].
  { destruct (strtol optarg) as [v e]. destruct e; [discriminate|].
    destruct (6000000 <? to_uint v); [discriminate|].
    intros [= <-]. reflexivity. }
  destruct (Ascii.eqb_spec opt "t") as [->|_].
  { destruct (String.eqb optarg "hw"); [intros [= <-]; reflexivity|].
    destruct (String.eqb optarg "sw"); [intros [= <-]; reflexivity|].
    discriminate. }
  destruct (Ascii.eqb_spec opt "b") as [->|_].
  { destruct (8 <? strlen optarg); [discriminate|]. intros [= <-]. reflexivity. }
  destruct (Ascii.eqb_spec opt "F") as [->|_]; [intros [= <-]; reflexivity|].
  discriminate.
Qed.

Lemma options_from_cons o p rest :
  options_from (options_from o [p]) rest = options_from o (p :: rest).
Proof.
  destruct p as [c a]. unfold options_from, has_opt.
  cbn [existsb last_arg fst orb send_open send_close send_listen
       send_read_status_flags speed uart_speed_str uart_speed flow_type btr
       run_as_daemon].
  f_equal;
    repeat match goal with
           | |- context [existsb ?f rest] => destruct (existsb f rest)
           | |- context [last_arg ?c rest] => destruct (last_arg c rest)
           | |- context [Ascii.eqb ?x ?y] => destruct (Ascii.eqb x y)
           end; reflexivity.
Qed.

Lemma option_case_acceptable o opt optarg :
  option_case o opt optarg =
  if acceptable opt optarg then Ok (options_from o [(opt, optarg)])
  else Halt (Exited EXIT_FAILURE).
Proof.
  destruct (option_case o opt optarg) as [o1|h] eqn:E.
  - rewrite <- (option_case_Ok _ _ _ _ E).
    enough (acceptable opt optarg = true) as -> by reflexivity.
    revert E. unfold option_case, acceptable, print_usage.
    destruct (Ascii.eqb_spec opt "o") as [->|_]; [reflexivity|].
    destruct (Ascii.eqb_spec opt "c") as [->|_]; [reflexivity|].
    destruct (Ascii.eqb_spec opt "f") as [->|_]; [reflexivity|].
    destruct (Ascii.eqb_spec opt "l") as [->|_]; [reflexivity|].
    destruct (Ascii.eqb_spec opt "s") as [->|_].
    { rewrite Z.leb_antisym. now destruct (1 <? strlen optarg). }
    destruct (Ascii.eqb_spec opt "S") as [->|_].
    { cbn. rewrite Z.leb_antisym. destruct (strtol optarg) as [v e]. cbn.
      destruct e; [discriminate|]. now destruct (6000000 <? to_uint v). }
    destruct (Ascii.eqb_spec opt "t") as [->|_].
    { cbn. destruct (String.eqb optarg "hw"); [reflexivity|].
      now destruct (String.eqb optarg "sw"). }
    destruct (Ascii.eqb_spec opt "b") as [->|_].
    { cbn. rewrite Z.leb_antisym. now destruct (8 <? strlen optarg). }
    destruct (Ascii.eqb_spec opt "F") as [->|_]; [reflexivity|discriminate].
  - rewrite (option_case_halts _ _ _ _ E).
    enough (acceptable opt optarg = false) as -> by reflexivity.
    revert E. unfold option_case, acceptable, print_usage.
    destruct (Ascii.eqb_spec opt "o") as [->|_]; [discriminate|].
    destruct (Ascii.eqb_spec opt "c") as [->|_]; [discriminate|].
    destruct (Ascii.eqb_spec opt "f") as [->|_]; [discriminate|].
    destruct (Ascii.eqb_spec opt "l") as [->|_]; [discriminate|].
    destruct (Ascii.eqb_spec opt "s") as [->|_].
    { rewrite Z.leb_antisym. now destruct (1 <? strlen optarg). }
    destruct (Ascii.eqb_spec opt "S") as [->|_].
    { cbn. rewrite Z.leb_antisym. destruct (strtol optarg) as [v e]. cbn.
      destruct e; [reflexivity|]. now destruct (6000000 <? to_uint v). }
    destruct (Ascii.eqb_spec opt "t") as [->|_].
    { cbn. destruct (String.eqb optarg "hw"); [discriminate|].
      now destruct (String.eqb optarg "sw"). }
    destruct (Ascii.eqb_spec opt "b") as [->|_].
    { cbn. rewrite Z.leb_antisym. now destruct (8 <? strlen optarg). }
    destruct (Ascii.eqb_spec opt "F") as [->|_]; [discriminate|reflexivity].
Qed.

Lemma parse_options_factors opts : forall o0,
  parse_options opts o0 =
  if forallb (fun p => acceptable (fst p) (snd p)) opts
  then Ok (options_from o0 opts)
  else Halt (Exited EXIT_FAILURE).
Proof.
  induction opts as [|[opt optarg] rest IH]; intros o0.
  - cbn [parse_options forallb]. f_equal. destruct o0. reflexivity.
  - cbn [parse_options forallb fst snd andb].
    rewrite option_case_acceptable.
    destruct (acceptable opt optarg); [|reflexivity].
    rewrite IH, options_from_cons. reflexivity.
Qed.

Lemma parse_options_initial opts :
  parse_options opts initial_options =
  if forallb (fun p => acceptable (fst p) (snd p)) opts
  then Ok (options_of opts)
  else Halt (Exited EXIT_FAILURE).
Proof.
  rewrite parse_options_factors.
  destruct (forallb _ opts); [|reflexivity]. f_equal.
  unfold options_from, options_of.
  cbn [initial_options send_open send_close send_listen
       send_read_status_flags speed uart_speed_str uart_speed flow_type btr
       run_as_daemon].
  now destruct (last_arg "s" opts), (last_arg "S" opts), (last_arg "b" opts).
Qed.

(** X2.  The option loop accepts a command line exactly when every option
    passes its own check, in whatever order and however often the options
    are given.  The locals are then read off the list: a flag is set when
    its letter occurs, an argument is that of the last occurrence.
    Otherwise the process exits with status 1. *)
Theorem option_loop_checks_each_option_alone opts :
  parse_options opts initial_options =
  if forallb (fun p => acceptable (fst p) (snd p)) opts
  then Ok (options_of opts)
  else Halt (Exited EXIT_FAILURE).
Proof. exact (parse_options_initial opts). Qed.

Lemma last_arg_In c opts : forall a,
  last_arg c opts = Some a -> In (c, a) opts.
Proof.
  induction opts as [|[c' a'] rest IH]; intros a; cbn [last_arg].
  - discriminate.
  - destruct (last_arg c rest) as [x|].
    + intros [= ->]. right. now apply IH.
    + destruct (Ascii.eqb_spec c' c) as [->|_]; [|discriminate].
      intros [= ->]. now left.
Qed.

Lemma parse_options_initial_Ok opts o :
  parse_options opts initial_options = Ok o ->
  forallb (fun p => acceptable (fst p) (snd p)) opts = true /\
  o = options_of opts.
Proof.
  rewrite parse_options_initial.
  destruct (forallb _ opts); [|discriminate]. now intros [= <-].
Qed.

Lemma last_arg_acceptable c opts a :
  forallb (fun p => acceptable (fst p) (snd p)) opts = true ->
  last_arg c opts = Some a -> acceptable c a = true.
Proof.
  intros F L. apply last_arg_In in L.
  rewrite forallb_forall in F. exact (F _ L).
Qed.

Lemma parse_options_validated opts o :
  parse_options opts initial_options = Ok o -> validated o.
Proof.
  intros E. apply parse_options_initial_Ok in E as [F ->].
  split; unfold options_of;
    cbn [speed btr uart_speed flow_type].
  - intros s L. apply (last_arg_acceptable _ _ _ F) in L.
    cbn in L. now apply Z.leb_le in L.
  - intros b L. apply (last_arg_acceptable _ _ _ F) in L.
    cbn in L. now apply Z.leb_le in L.
  - destruct (last_arg "S" opts) as [a|] eqn:L; [|lia].
    apply (last_arg_acceptable _ _ _ F) in L. cbn in L.
    apply andb_true_iff in L as [_ L]. apply Z.leb_le in L.
    split; [|exact L]. unfold to_uint. apply Z.mod_pos_bound. reflexivity.
  - destruct (last_arg "t" opts) as [a|]; [|now left].
    unfold flow_of_token. destruct (String.eqb a "hw"); auto.
Qed.

(** X3.  After an accepted option loop the speed code has at most one
    character, the bit timing at most eight, the baud rate held in the
    unsigned local lies between 0 and 6000000, and the flow type is one
    of the three known values. *)
Theorem accepted_options_are_within_bounds opts o :
  parse_options opts initial_options = Ok o ->
  (forall s, speed o = Some s -> strlen s <= 1) /\
  (forall b, btr o = Some b -> strlen b <= 8) /\
  0 <= uart_speed o <= 6000000 /\
  (flow_type o = FLOW_NONE \/ flow_type o = FLOW_HW \/ flow_type o = FLOW_SW).
Proof.
  intros E. destruct (parse_options_validated opts o E) as [V1 V2 V3 V4].
  now repeat split.
Qed.

(** The options [-t hw -S 115200]. *)
Lemma accepted_options_are_within_bounds_witness :
  parse_options (cl_opts hw_request) initial_options =
    Ok (options_of (cl_opts hw_request)) /\
  0 <= uart_speed (options_of (cl_opts hw_request)) <= 6000000.
Proof.
  assert (E : parse_options (cl_opts hw_request) initial_options =
              Ok (options_of (cl_opts hw_request))) by reflexivity.
  split; [exact E|].
  exact (proj1 (proj2 (proj2 (accepted_options_are_within_bounds _ _ E)))).
Defined.

(** ** The command buffer *)

Lemma strlen_append (a b : string) :
  strlen (a ++ b)%string = strlen a + strlen b.
Proof. unfold strlen. rewrite length_append'. lia. Qed.

Lemma cs_write_or_die_fits fd buf :
  strlen buf + 1 <= BUF_SIZE -> calls_satisfy fits_buf (write_or_die fd buf).
Proof.
  intros H. unfold write_or_die. cs ltac:(exact H).
Qed.

Lemma cs_protocol_primer_fits o fd :
  validated o -> calls_satisfy fits_buf (protocol_primer o fd).
Proof.
  intros [Vs Vb _ _]. unfold protocol_primer.
  apply cs_bind; [|intros _; apply cs_bind; [|intros _; apply cs_bind; [|intros _]]].
  - destruct (speed o) as [s|]; [|apply cs_ret].
    apply cs_write_or_die_fits. specialize (Vs s eq_refl).
    change ("C" ++ CR ++ "S" ++ s ++ CR)%string
      with (String "C" (String (ascii_of_nat 13) (String "S" (s ++ CR)%string))).
    unfold BUF_SIZE, strlen in *. cbn [String.length].
    rewrite length_append'. cbn [String.length CR]. lia.
  - destruct (btr o) as [b|]; [|apply cs_ret].
    apply cs_write_or_die_fits. specialize (Vb b eq_refl).
    change ("C" ++ CR ++ "s" ++ b ++ CR)%string
      with (String "C" (String (ascii_of_nat 13) (String "s" (b ++ CR)%string))).
    unfold BUF_SIZE, strlen in *. cbn [String.length].
    rewrite length_append'. cbn [String.length CR]. lia.
  - destruct (truthy _); [|apply cs_ret].
    apply cs_write_or_die_fits. unfold BUF_SIZE. cbn. lia.
  - destruct (truthy _); [apply cs_write_or_die_fits; unfold BUF_SIZE; cbn; lia|].
    destruct (truthy _); [apply cs_write_or_die_fits; unfold BUF_SIZE; cbn; lia|].
    apply cs_ret.
Qed.

Lemma cs_teardown_fits o fd told : calls_satisfy fits_buf (teardown o fd told).
Proof.
  unfold teardown, get_exit_code.
  apply cs_bind; [apply cs_sys; exact I|intros r].
  destruct (r <? 0); [apply cs_exit|].
  apply cs_bind.
  - destruct (truthy _); [|apply cs_ret].
    apply cs_write_or_die_fits. unfold BUF_SIZE. cbn. lia.
  - intros _. apply cs_bind; [apply cs_sys; exact I|intros r'].
    destruct (r' <? 0); [apply cs_exit|]. now apply cs_silent.
Qed.

(** X4.  Every command written in any run, on any machine, fits [buf] with
    its terminating NUL: the option loop bounds the two arguments that
    are formatted into it. *)
Theorem command_buffer_never_overflows cl m :
  Forall fits_buf (run_trace cl m).
Proof.
  rewrite run_trace_main, main_unfold.
  destruct (parse_options (cl_opts cl) initial_options) as [o|h] eqn:E0;
    [|constructor].
  apply parse_options_validated in E0.
  destruct (positionals cl) as [[tty name]|h]; [|constructor].
  destruct (cs_line_setup_fits o (make_ttypath tty) (boot m)) as (d1 & T1 & F1).
  destruct (line_setup o (make_ttypath tty) (boot m)) as [[[fd told]|h] w1];
    cbn [snd] in *; [|now rewrite T1].
  assert (X : calls_satisfy fits_buf
                (protocol_primer o fd ;; discipline_attacher fd name ;;
                 run_supervisor o ;; teardown o fd told)).
  { apply cs_bind; [now apply cs_protocol_primer_fits|intros _].
    apply cs_bind; [apply cs_discipline_attacher_fits|intros _].
    apply cs_bind; [apply cs_run_supervisor_fits|intros _].
    apply cs_teardown_fits. }
  destruct (X w1) as (d2 & T2 & F2). rewrite T2, T1.
  apply Forall_app. split; [exact F1|exact F2].
Qed.

(** ** The baud rate that is applied *)

(** X5.  The settings of the first TCSETS2 of any run carry one speed for
    both directions, between 0 and 6000000, with BOTHER in the CBAUD
    field. *)
Theorem applied_baud_is_within_the_ceiling cl m t :
  first_TCSETS2 (run_trace cl m) = Some t ->
  0 <= c_ispeed t <= 6000000 /\ c_ospeed t = c_ispeed t /\
  Z.land (c_cflag t) CBAUD = BOTHER.
Proof.
  intros Ht.
  destruct (parse_options (cl_opts cl) initial_options) as [o|h] eqn:E0.
  - destruct (run_first_TCSETS2 cl m o E0) as [F|F]; rewrite F in Ht;
      [discriminate|injection Ht as <-].
    apply parse_options_validated in E0. destruct E0 as [_ _ Vb _].
    destruct (assemble_speeds (m_termios m) (uart_speed o) (flow_type o))
      as [-> ->].
    split; [exact Vb|]. split; [reflexivity|]. apply assemble_selects_BOTHER.
  - rewrite run_trace_main, main_unfold, E0 in Ht. discriminate.
Qed.

(** The run [-t hw -S 115200 ttyUSB0]. *)
Lemma applied_baud_is_within_the_ceiling_witness :
  first_TCSETS2 (run_trace hw_request (pc [])) =
    Some (assemble_tios cooked 115200 FLOW_HW) /\
  0 <= c_ispeed (assemble_tios cooked 115200 FLOW_HW) <= 6000000.
Proof.
  split; [reflexivity|].
  exact (proj1 (applied_baud_is_within_the_ceiling
                  hw_request (pc []) (assemble_tios cooked 115200 FLOW_HW)
                  eq_refl)).
Defined.

(** ** Usage errors *)

Lemma unknown_not_acceptable opt optarg :
  known_option opt = false -> acceptable opt optarg = false.
Proof.
  unfold known_option, acceptable. cbn [existsb].
  destruct (Ascii.eqb opt "o"), (Ascii.eqb opt "c"), (Ascii.eqb opt "f"),
    (Ascii.eqb opt "l"), (Ascii.eqb opt "s"), (Ascii.eqb opt "S"),
    (Ascii.eqb opt "t"), (Ascii.eqb opt "b"), (Ascii.eqb opt "F");
    cbn; congruence.
Qed.

(** X6.  An option letter the loop has no case for, anywhere on the
    command line, or a missing tty argument ends the process with status
    1 before any call is recorded: the machine is as it was started. *)
Theorem usage_errors_end_before_any_call cl m :
  (exists opt optarg,
      In (opt, optarg) (cl_opts cl) /\ known_option opt = false)
  \/ cl_args cl = [] ->
  run cl m = (Stopped (Exited EXIT_FAILURE), boot m).
Proof.
  intros H. unfold run. rewrite main_unfold, parse_options_initial.
  destruct (forallb _ (cl_opts cl)) eqn:F; [|reflexivity].
  destruct H as [(opt & optarg & HIn & HK) | HA].
  - rewrite forallb_forall in F. specialize (F _ HIn). cbn in F.
    rewrite unknown_not_acceptable in F by assumption. discriminate.
  - unfold positionals. rewrite HA. reflexivity.
Qed.

(** The runs [-F -x ttyUSB0] and [-F]. *)
Lemma usage_errors_end_before_any_call_witness :
  run_trace (Cmdline [flag "F"; flag "x"] ["ttyUSB0"]) (pc []) = [] /\
  run_trace (Cmdline [flag "F"] []) (pc []) = [].
Proof.
  split.
  - unfold run_trace.
    rewrite (usage_errors_end_before_any_call
               (Cmdline [flag "F"; flag "x"] ["ttyUSB0"]) (pc [])).
    + reflexivity.
    + left. exists "x"%char, EmptyString. split; [|reflexivity].
      right. now left.
  - unfold run_trace.
    rewrite (usage_errors_end_before_any_call (Cmdline [flag "F"] []) (pc []));
      [reflexivity|now right].
Defined.

(** ** The first call *)

Lemma line_setup_opens_first o path w :
  exists d, k_trace (snd (line_setup o path w)) = k_trace w ++ Open path :: d.
Proof.
  unfold line_setup. unfold bind at 1.
  destruct (sys (Open path) w) as [[fd|h] w0] eqn:E0; [|discriminate].
  assert (T0 : k_trace w0 = k_trace w ++ [Open path])
    by (now rewrite <- sys_trace, E0).
  destruct (fd <? 0).
  - exists []. exact T0.
  - match goal with
    | |- context [bind ?a ?b w0] => assert (X : extends (bind a b))
    end.
    { apply orderly_extends. unfold ioctl_TCGETS2, ioctl_TIOCGSERIAL. orderly. }
    destruct (X w0) as [d Td]. exists d. rewrite Td, T0.
    now rewrite <- app_assoc.
Qed.

(** X7.  Once the command line is accepted, the first call recorded in
    the run is the [open] of the prepared device path. *)
Theorem device_is_opened_first cl m o tty name :
  parse_options (cl_opts cl) initial_options = Ok o ->
  positionals cl = Ok (tty, name) ->
  exists rest, run_trace cl m = Open (make_ttypath tty) :: rest.
Proof.
  intros E0 Ep. rewrite run_trace_main, main_unfold, E0, Ep.
  destruct (line_setup_opens_first o (make_ttypath tty) (boot m)) as [d T].
  destruct (line_setup o (make_ttypath tty) (boot m)) as [[[fd told]|h] w1];
    cbn [snd] in *.
  - destruct (extends_main_tail o fd name told w1) as [d' T'].
    exists (d ++ d'). rewrite T', T. cbn [boot k_trace app]. reflexivity.
  - exists d. exact T.
Qed.

(** The run [-F ttyUSB0 can0]. *)
Lemma device_is_opened_first_witness :
  exists rest,
    run_trace renaming (pc [[SIGINT]]) = Open "/dev/ttyUSB0" :: rest.
Proof.
  exact (device_is_opened_first
           renaming (pc [[SIGINT]]) (options_of (cl_opts renaming))
           "ttyUSB0" (Some "can0") eq_refl eq_refl).
Defined.

(** ** The calls of Line Setup *)

Lemma bind_sys {B : Type} c (f : Z -> M B) w :
  bind (sys c) f w =
  f (k_ret w (List.length (k_trace w)) c)
    (kernel_effect c (k_ret w (List.length (k_trace w)) c)
                   (with_trace w (k_trace w ++ [c]))).
Proof. reflexivity. Qed.

Lemma bind_TCGETS2 {B : Type} fd (f : Z * termios2 -> M B) w :
  bind (ioctl_TCGETS2 fd) f w =
  f (k_ret w (List.length (k_trace w)) (Ioctl fd TCGETS2),
     if k_ret w (List.length (k_trace w)) (Ioctl fd TCGETS2) <? 0
     then zero_termios else tty_termios w)
    (with_trace w (k_trace w ++ [Ioctl fd TCGETS2])).
Proof. reflexivity. Qed.

Lemma bind_TIOCGSERIAL {B : Type} fd (f : Z * Z -> M B) w :
  bind (ioctl_TIOCGSERIAL fd) f w =
  f (k_ret w (List.length (k_trace w)) (Ioctl fd TIOCGSERIAL),
     if k_ret w (List.length (k_trace w)) (Ioctl fd TIOCGSERIAL) <? 0
     then k_stack w else tty_serial w)
    (with_trace w (k_trace w ++ [Ioctl fd TIOCGSERIAL])).
Proof. reflexivity. Qed.

Ltac sign_cases :=
  repeat match goal with
         | |- context [?a <? 0] => destruct (Z.ltb_spec a 0)
         | |- context [0 <=? ?a] => destruct (Z.leb_spec 0 a)
         end; try lia.

Lemma line_setup_observed o path w :
  fst (line_setup o path w) =
    (if setup_accepted o path w
     then Ok (setup_open path w, tty_termios w)
     else Halt (Exited EXIT_FAILURE)) /\
  tty_termios (snd (line_setup o path w)) =
    (if setup_accepted o path w
     then assemble_tios (tty_termios w) (uart_speed o) (flow_type o)
     else tty_termios w) /\
  exists flags,
    Z.testbit flags 13 = true /\
    k_trace (snd (line_setup o path w)) =
    k_trace w ++ setup_calls o path w flags.
Proof.
  unfold setup_calls, setup_accepted, setup_apply, setup_get2, setup_get1,
    setup_open.
  unfold line_setup.
  rewrite bind_sys. cbn [kernel_effect].
  set (fd := k_ret w (List.length (k_trace w)) (Open path)).
  destruct (Z.ltb_spec fd 0) as [L0|L0].
  { destruct (Z.leb_spec 0 fd); [lia|].
    split; [reflexivity|]. split; [reflexivity|]. exists ASYNC_LOW_LATENCY.
    split; reflexivity. }
  destruct (Z.leb_spec 0 fd) as [_|?]; [|lia]. cbn [andb].
  rewrite bind_TCGETS2. cbv beta iota.
  cbn [k_ret k_trace with_trace tty_termios]. rewrite length_snoc.
  set (r1 := k_ret w (S (List.length (k_trace w))) (Ioctl fd TCGETS2)).
  destruct (Z.ltb_spec r1 0) as [L1|L1].
  { destruct (Z.leb_spec 0 r1); [lia|].
    split; [reflexivity|]. split; [reflexivity|]. exists ASYNC_LOW_LATENCY.
    split; [reflexivity|]. cbn. now rewrite <- app_assoc. }
  destruct (Z.leb_spec 0 r1) as [_|?]; [|lia]. cbn [andb].
  rewrite bind_TCGETS2. cbv beta iota.
  cbn [k_ret k_trace with_trace tty_termios]. rewrite !length_snoc.
  set (r2 := k_ret w (S (S (List.length (k_trace w)))) (Ioctl fd TCGETS2)).
  destruct (Z.ltb_spec r2 0) as [L2|L2].
  { destruct (Z.leb_spec 0 r2); [lia|].
    split; [reflexivity|]. split; [reflexivity|]. exists ASYNC_LOW_LATENCY.
    split; [reflexivity|]. cbn. now rewrite <- !app_assoc. }
  destruct (Z.leb_spec 0 r2) as [_|?]; [|lia]. cbn [andb].
  rewrite bind_TIOCGSERIAL. cbv beta iota.
  cbn [k_ret k_trace with_trace tty_termios tty_serial k_stack].
  rewrite !length_snoc.
  rewrite bind_sys.
  cbn [k_ret k_trace with_trace tty_termios tty_serial k_stack].
  rewrite !length_snoc.
  set (flags := set_bits _ ASYNC_LOW_LATENCY).
  set (r4 := k_ret w _ (Ioctl fd (TIOCSSERIAL flags))).
  assert (Hflags : Z.testbit flags 13 = true).
  { subst flags. unfold set_bits. rewrite Z.lor_spec.
    change (Z.testbit ASYNC_LOW_LATENCY 13) with true. apply orb_true_r. }
  cbn [kernel_effect].
  destruct (r4 <? 0);
    rewrite bind_sys;
    cbn [kernel_effect k_ret k_trace with_trace with_tty_serial tty_termios];
    rewrite !length_snoc;
    change (S (S (S (S (S (List.length (k_trace w)))))))
      with (5 + List.length (k_trace w))%nat;
    set (r5 := k_ret w _ _);
    (destruct (Z.ltb_spec r5 0) as [L5|L5];
     destruct (Z.leb_spec 0 r5) as [?|?]; try lia);
    (split; [reflexivity|]; split; [reflexivity|]);
    exists flags; (split; [exact Hflags|]); cbn; now rewrite <- !app_assoc.
Qed.

(** X8.  Line Setup ends the process with status 1 exactly when the
    [open], one of the two TCGETS2 or the TCSETS2 fails; the answers to
    TIOCGSERIAL and TIOCSSERIAL are not looked at.  Otherwise it yields
    the descriptor and the settings the device had. *)
Theorem line_setup_fatal_calls o path w :
  fst (line_setup o path w) =
  if setup_accepted o path w
  then Ok (setup_open path w, tty_termios w)
  else Halt (Exited EXIT_FAILURE).
Proof. exact (proj1 (line_setup_observed o path w)). Qed.

(** X9.  Line Setup makes its calls in one fixed order and stops at the
    first checked call that fails; the descriptor is closed only after a
    failed TCSETS2; the flags handed to TIOCSSERIAL have
    ASYNC_LOW_LATENCY set.  The device has the assembled settings when
    all checked calls succeed, and the settings it had otherwise. *)
Theorem line_setup_calls_and_settings o path w :
  tty_termios (snd (line_setup o path w)) =
    (if setup_accepted o path w
     then assemble_tios (tty_termios w) (uart_speed o) (flow_type o)
     else tty_termios w) /\
  exists flags,
    Z.testbit flags 13 = true /\
    k_trace (snd (line_setup o path w)) =
    k_trace w ++ setup_calls o path w flags.
Proof. exact (proj2 (line_setup_observed o path w)). Qed.

(** ** Observations a computation preserves *)

Section Preserves.

Context {X : Type} (f : world -> X).

Hypothesis f_trace : forall w tr, f (with_trace w tr) = f w.

Lemma pr_ret {A : Type} (a : A) : preserves f (ret a).
Proof. now intros w. Qed.

Lemma pr_exit {A : Type} (st : Z) : preserves f (@exit A st).
Proof. now intros w. Qed.

Lemma pr_sys c :
  (forall r w, f (kernel_effect c r w) = f w) -> preserves f (sys c).
Proof. intros H w. unfold sys. cbn [snd]. now rewrite H, f_trace. Qed.

Lemma pr_bind {A B : Type} (m : M A) (k : A -> M B) :
  preserves f m -> (forall a, preserves f (k a)) -> preserves f (bind m k).
Proof.
  intros Hm Hk w. unfold bind. specialize (Hm w).
  destruct (m w) as [[a|h] w1]; cbn [snd] in *; [|exact Hm].
  now rewrite Hk.
Qed.

Lemma pr_read {A : Type} (m : M Z) (g : Z -> world -> A) :
  preserves f m ->
  preserves f (fun w => match m w with
                        | (Ok r, w') => (Ok (r, g r w), w')
                        | (Halt h, w') => (Halt h, w')
                        end).
Proof.
  intros Hm w. specialize (Hm w). now destruct (m w) as [[r|h] w'].
Qed.

Hypothesis f_running : forall w v, f (with_running w v) = f w.
Hypothesis f_exit_code : forall w v, f (with_exit_code w v) = f w.
Hypothesis f_handlers : forall w v, f (with_handlers w v) = f w.

Lemma pr_child_handler s : preserves f (child_handler s).
Proof.
  intros w. unfold child_handler.
  destruct (s =? SIGUSR1); [reflexivity|].
  destruct (_ || _); [|reflexivity]. cbn [snd].
  now rewrite f_running, f_exit_code.
Qed.

Lemma pr_deliver s : preserves f (deliver s).
Proof.
  intros w. unfold deliver. destruct (trapped s w); [apply pr_child_handler|].
  destruct (default_terminates s); reflexivity.
Qed.

Lemma pr_deliver_all batch : preserves f (deliver_all batch).
Proof.
  induction batch as [|s rest IH]; cbn [deliver_all]; [apply pr_ret|].
  apply pr_bind; [apply pr_deliver|intros _; exact IH].
Qed.

Lemma pr_big_loop pending : preserves f (big_loop pending).
Proof.
  induction pending as [|batch later IH]; intros w; cbn [big_loop];
    destruct (truthy (slcand_running w)); try reflexivity.
  revert w. change (preserves f (sys Sleep ;; deliver_all batch ;; big_loop later)).
  apply pr_bind; [now apply pr_sys|intros _].
  apply pr_bind; [apply pr_deliver_all|intros _; exact IH].
Qed.

Lemma pr_run_supervisor o : preserves f (run_supervisor o).
Proof.
  unfold run_supervisor, signal, set_running.
  apply pr_bind; [|intros _; apply pr_bind].
  - destruct (truthy (run_as_daemon o)).
    + apply pr_bind; [now apply pr_sys|intros r].
      destruct (truthy r); [apply pr_exit|apply pr_ret].
    + apply pr_bind; [|intros _].
      * apply pr_bind; [now apply pr_sys|intros _].
        intros w. cbn [snd]. apply f_handlers.
      * apply pr_bind; [now apply pr_sys|intros _].
        intros w. cbn [snd]. apply f_handlers.
  - intros w. cbn [snd]. apply f_running.
  - intros _ w. apply pr_big_loop.
Qed.

Lemma pr_write_or_die fd buf : preserves f (write_or_die fd buf).
Proof.
  unfold write_or_die. apply pr_bind; [now apply pr_sys|intros r].
  destruct (r <=? 0); [apply pr_exit|apply pr_ret].
Qed.

Lemma pr_protocol_primer o fd : preserves f (protocol_primer o fd).
Proof.
  unfold protocol_primer.
  repeat (apply pr_bind; [|intros _]);
    repeat match goal with
           | |- preserves _ (match ?x with Some _ => _ | None => _ end) =>
               destruct x
           | |- preserves _ (if ?b then _ else _) => destruct b
           end;
    first [apply pr_write_or_die | apply pr_ret].
Qed.

End Preserves.

(** ** Background mode *)

Lemma deliver_untrapped s w :
  handlers w = [] ->
  deliver s w = (Ok tt, w) \/
  (default_terminates s = true /\ deliver s w = (Halt (Killed s), w)).
Proof.
  intros H. unfold deliver, trapped. rewrite H. cbn [existsb].
  destruct (default_terminates s); auto.
Qed.

Lemma deliver_all_untrapped batch : forall w,
  handlers w = [] ->
  deliver_all batch w = (Ok tt, w) \/
  exists s, In s batch /\ default_terminates s = true /\
            deliver_all batch w = (Halt (Killed s), w).
Proof.
  induction batch as [|s rest IH]; intros w H; cbn [deliver_all].
  - now left.
  - unfold bind. destruct (deliver_untrapped s w H) as [-> | (D & ->)].
    + destruct (IH w H) as [E | (s' & Hs & D & E)]; [now left|].
      right. exists s'. split; [now right|now split].
    + right. exists s. split; [now left|now split].
Qed.

Lemma big_loop_untrapped pending : forall w,
  handlers w = [] -> slcand_running w <> 0 ->
  fst (big_loop pending w) = Halt Waiting \/
  exists s, In s (List.concat pending) /\ default_terminates s = true /\
            fst (big_loop pending w) = Halt (Killed s).
Proof.
  induction pending as [|batch later IH]; intros w H R;
    cbn [big_loop]; unfold truthy;
    destruct (Z.eqb_spec (slcand_running w) 0) as [?|_]; try contradiction;
    cbn [negb].
  - now left.
  - rewrite bind_sys. cbn [kernel_effect].
    set (w0 := with_trace w _).
    assert (H0 : handlers w0 = []) by exact H.
    assert (R0 : slcand_running w0 <> 0) by exact R.
    unfold bind.
    destruct (deliver_all_untrapped batch w0 H0) as [-> | (s & Hs & D & ->)].
    + destruct (IH w0 H0 R0) as [E | (s & Hs & D & E)]; [now left|].
      right. exists s. split; [|now split].
      cbn [List.concat]. apply in_or_app. now right.
    + right. exists s. split; [|now split].
      cbn [List.concat]. apply in_or_app. now left.
Qed.

Lemma no_F_keeps_daemon opts : forall o0 o,
  (forall a, ~ In ("F"%char, a) opts) ->
  parse_options opts o0 = Ok o -> run_as_daemon o = run_as_daemon o0.
Proof.
  intros o0 o HF E. rewrite parse_options_factors in E.
  destruct (forallb _ opts); [|discriminate]. injection E as <-.
  unfold options_from. cbn [run_as_daemon].
  enough (has_opt "F" opts = false) as -> by reflexivity.
  unfold has_opt. apply not_true_is_false. intros X.
  apply existsb_exists in X as ([c a] & HIn & Hc). cbn in Hc.
  apply Ascii.eqb_eq in Hc. subst c. exact (HF a HIn).
Qed.

Lemma run_supervisor_background o w :
  truthy (run_as_daemon o) = true -> handlers w = [] ->
  exists h, fst (run_supervisor o w) = Halt h.
Proof.
  intros D H. unfold run_supervisor. rewrite D.
  unfold bind, sys, ret, exit, lift, set_running. cbn [kernel_effect].
  clear D.
  destruct (truthy (k_ret w _ Daemon)); cbv beta iota;
    [eexists; reflexivity|].
  match goal with
  | |- context [big_loop ?p ?w0] =>
      destruct (big_loop_untrapped p w0) as [E | (s & _ & _ & E)];
      [exact H | cbn; discriminate | |]
  end; rewrite E; now eexists.
Qed.

Lemma run_world_main cl m : run_world cl m = snd (main cl (boot m)).
Proof.
  unfold run_world, run. now destruct (main cl (boot m)) as [[st|h] w].
Qed.

Ltac pr_call :=
  apply pr_sys;
  [ reflexivity
  | let r := fresh "r" in let w := fresh "w" in
    intros r w; cbn; try destruct (r <? 0); reflexivity ].

Lemma attacher_keeps_settings fd name :
  preserves tty_termios (discipline_attacher fd name).
Proof.
  unfold discipline_attacher, ioctl_SIOCGIFNAME.
  apply pr_bind; [pr_call|intros r].
  destruct (r <? 0); [apply pr_exit|].
  apply pr_bind; [apply pr_read; pr_call|intros [r' nm]].
  destruct (r' <? 0); [apply pr_exit|].
  destruct name as [n|]; [|apply pr_ret].
  apply pr_bind; [pr_call|intros s].
  destruct (s <? 0); [apply pr_ret|].
  apply pr_bind; [pr_call|intros r2].
  destruct (r2 <? 0); [apply pr_exit|].
  apply pr_bind; [pr_call|intros _]. apply pr_ret.
Qed.

Lemma before_teardown_keeps_settings o fd name :
  preserves tty_termios
    (protocol_primer o fd ;; discipline_attacher fd name ;; run_supervisor o).
Proof.
  apply pr_bind; [now apply pr_protocol_primer|intros _].
  apply pr_bind; [apply attacher_keeps_settings|intros _].
  now apply pr_run_supervisor.
Qed.

Lemma bind_assoc3 {A B C D : Type} (m1 : M A) (m2 : M B) (m3 : M C) (m4 : M D) w :
  (m1 ;; m2 ;; m3 ;; m4) w = ((m1 ;; m2 ;; m3) ;; m4) w.
Proof.
  unfold bind. destruct (m1 w) as [[a|h] w1]; [|reflexivity].
  destruct (m2 w1) as [[b|h] w2]; [|reflexivity].
  destruct (m3 w2) as [[c|h] w3]; reflexivity.
Qed.

Lemma before_teardown_process o fd name w r w' :
  (protocol_primer o fd ;; discipline_attacher fd name ;; run_supervisor o) w
    = (r, w') ->
  exists w3, handlers w3 = handlers w /\
    ((exists h, r = Halt h /\ h = Exited EXIT_FAILURE)
     \/ run_supervisor o w3 = (r, w')).
Proof.
  unfold bind at 1. intros E.
  destruct (protocol_primer o fd w) as [[[]|h] w2] eqn:E2.
  - destruct (orderly_protocol_primer _ _ _ _ _ E2) as ([H2 _ _ _] & _ & _).
    unfold bind at 1 in E.
    destruct (discipline_attacher fd name w2) as [[[]|h] w3] eqn:E3.
    + destruct (orderly_discipline_attacher _ _ _ _ _ E3) as ([H3 _ _ _] & _ & _).
      exists w3. split; [congruence|now right].
    + destruct (orderly_discipline_attacher _ _ _ _ _ E3) as (_ & X & _).
      injection E as <- <-. exists w. split; [reflexivity|left].
      exists h. split; [reflexivity|now apply X].
  - destruct (orderly_protocol_primer _ _ _ _ _ E2) as (_ & X & _).
    injection E as <- <-. exists w. split; [reflexivity|left].
    exists h. split; [reflexivity|now apply X].
Qed.

(** X10.  Without [-F] no handler is installed, so no run reaches the
    final return: the settings of the device stay those assembled by
    Line Setup, or the original ones when Line Setup failed, and
    Teardown never restores them. *)
Theorem background_run_never_restores cl m o tty name :
  parse_options (cl_opts cl) initial_options = Ok o ->
  positionals cl = Ok (tty, name) ->
  (forall a, ~ In ("F"%char, a) (cl_opts cl)) ->
  (forall st, run_end cl m <> Returned st) /\
  tty_termios (run_world cl m) =
    (if setup_accepted o (make_ttypath tty) (boot m)
     then assemble_tios (m_termios m) (uart_speed o) (flow_type o)
     else m_termios m).
Proof.
  intros E0 Ep HF.
  assert (D : truthy (run_as_daemon o) = true)
    by (now rewrite (no_F_keeps_daemon _ _ _ HF E0)).
  destruct (line_setup_observed o (make_ttypath tty) (boot m))
    as (O1 & O2 & _).
  assert (M : main cl (boot m) =
              match line_setup o (make_ttypath tty) (boot m) with
              | (Halt h, w1) => (Halt h, w1)
              | (Ok (fd, told), w1) =>
                  ((protocol_primer o fd ;; discipline_attacher fd name ;;
                    run_supervisor o) ;; teardown o fd told) w1
              end).
  { rewrite main_unfold, E0, Ep.
    destruct (line_setup _ _ _) as [[[fd told]|h] w1]; [|reflexivity].
    apply bind_assoc3. }
  unfold run_end. rewrite run_world_main. unfold run. rewrite M. clear M.
  destruct (line_setup o (make_ttypath tty) (boot m)) as [[[fd told]|h] w1] eqn:E1;
    cbn [fst snd] in *.
  - assert (H1 : handlers w1 = [])
      by (destruct (orderly_line_setup _ _ _ _ _ E1) as ([H _ _ _] & _); exact H).
    pose proof (before_teardown_keeps_settings o fd name w1) as K.
    unfold bind at 1. unfold bind at 3.
    destruct ((protocol_primer o fd ;; _) w1) as [r w'] eqn:E.
    cbn [snd] in K.
    apply before_teardown_process in E as (w3 & H3 & [ (h & -> & _) | E ]).
    + cbn [fst snd]. split; [discriminate|]. now rewrite K, O2.
    + destruct (run_supervisor_background o w3 D) as [h Eh]; [congruence|].
      rewrite E in Eh. cbn [fst] in Eh. subst r.
      cbn [fst snd]. split; [discriminate|]. now rewrite K, O2.
  - split; [discriminate|]. rewrite O2.
    destruct (setup_accepted _ _ _); [discriminate|reflexivity].
Qed.

(** The run [-s 6 ttyUSB0] with SIGTERM during the first sleep. *)
Lemma background_run_never_restores_witness :
  (forall st,
      run_end (Cmdline [("s"%char, "6")] ["ttyUSB0"]) (pc [[SIGTERM]])
      <> Returned st) /\
  tty_termios (run_world (Cmdline [("s"%char, "6")] ["ttyUSB0"])
                         (pc [[SIGTERM]])) =
  assemble_tios cooked 0 FLOW_NONE.
Proof.
  apply (background_run_never_restores
           (Cmdline [("s"%char, "6")] ["ttyUSB0"]) (pc [[SIGTERM]])
           (options_of [("s"%char, "6")]) "ttyUSB0" None eq_refl eq_refl).
  intros a [E|[]]; discriminate.
Defined.

(** ** The calls of Teardown *)

Lemma bind_ret {A B : Type} (a : A) (f : A -> M B) w :
  bind (ret a) f w = f a w.
Proof. reflexivity. Qed.

Lemma bind_write_or_die {B : Type} fd buf (f : unit -> M B) w :
  bind (write_or_die fd buf) f w =
  if k_ret w (List.length (k_trace w)) (Write fd buf) <=? 0
  then (Halt (Exited EXIT_FAILURE),
        with_trace w (k_trace w ++ [Write fd buf]))
  else f tt (with_trace w (k_trace w ++ [Write fd buf])).
Proof.
  unfold write_or_die, bind, sys, exit, lift, ret. cbn.
  now destruct (_ <=? 0).
Qed.

Lemma teardown_observed o fd told w :
  fst (teardown o fd told w) =
    (if teardown_accepted o fd told w then Ok (exit_code w)
     else Halt (Exited EXIT_FAILURE)) /\
  tty_termios (snd (teardown o fd told w)) =
    (if teardown_accepted o fd told w then told else tty_termios w) /\
  k_trace (snd (teardown o fd told w)) =
    k_trace w ++ teardown_calls o fd told w.
Proof.
  unfold teardown_accepted, teardown_calls, td_restore, td_close, td_reset,
    close_command.
  unfold teardown. rewrite bind_sys. cbn [kernel_effect].
  set (r0 := k_ret w (List.length (k_trace w)) (Ioctl fd (TIOCSETD N_TTY))).
  destruct (Z.ltb_spec r0 0) as [L0|L0].
  { destruct (Z.leb_spec 0 r0); [lia|]. now repeat split. }
  destruct (Z.leb_spec 0 r0) as [_|?]; [|lia]. cbn [andb].
  destruct (truthy (send_close o)); cbn [negb orb].
  - rewrite bind_write_or_die.
    cbn [kernel_effect k_ret k_trace with_trace with_tty_ldisc].
    rewrite !length_snoc.
    set (rc := k_ret w (S (List.length (k_trace w))) _).
    destruct (Z.leb_spec rc 0) as [Lc|Lc].
    { destruct (Z.ltb_spec 0 rc); [lia|]. cbn.
      repeat split. now rewrite <- app_assoc. }
    destruct (Z.ltb_spec 0 rc) as [_|?]; [|lia]. cbn [andb].
    rewrite bind_sys.
    cbn [kernel_effect k_ret k_trace with_trace with_tty_ldisc].
    rewrite !length_snoc.
    set (r2 := k_ret w (S (S (List.length (k_trace w)))) _).
    destruct (Z.ltb_spec r2 0) as [L2|L2];
      destruct (Z.leb_spec 0 r2) as [?|?]; try lia; cbn;
      repeat split; now rewrite <- !app_assoc.
  - rewrite bind_ret. rewrite bind_sys.
    cbn [kernel_effect k_ret k_trace with_trace with_tty_ldisc].
    rewrite !length_snoc.
    set (r2 := k_ret w (S (List.length (k_trace w))) _).
    destruct (Z.ltb_spec r2 0) as [L2|L2];
      destruct (Z.leb_spec 0 r2) as [?|?]; try lia; cbn;
      repeat split; now rewrite <- !app_assoc.
Qed.

(** X11.  Teardown resets the discipline, writes the close command when
    [-c] was given, and restores the settings, in this order, stopping
    at the first call that fails (for the write: that returns no positive
    count).  It yields the exit status set by the handler when all of
    them succeed and ends the process with status 1 otherwise. *)
Theorem teardown_order_and_status o fd told w :
  fst (teardown o fd told w) =
    (if teardown_accepted o fd told w then Ok (exit_code w)
     else Halt (Exited EXIT_FAILURE)) /\
  k_trace (snd (teardown o fd told w)) =
    k_trace w ++ teardown_calls o fd told w.
Proof.
  destruct (teardown_observed o fd told w) as (H1 & _ & H3). now split.
Qed.

(** X12.  After Teardown the device has the snapshot when every call of
    Teardown succeeded, and otherwise the settings it had when Teardown
    began. *)
Theorem failed_teardown_restores_nothing o fd told w :
  tty_termios (snd (teardown o fd told w)) =
  if teardown_accepted o fd told w then told else tty_termios w.
Proof. exact (proj1 (proj2 (teardown_observed o fd told w))). Qed.

(** ** What the assembled settings keep *)

Lemma assemble_frame tios baud flow :
  let t := assemble_tios tios baud flow in
  c_oflag t = c_oflag tios /\ c_lflag t = c_lflag tios /\
  c_line t = c_line tios /\ c_cc t = c_cc tios /\
  (forall i, 0 <= i < UINT_WIDTH -> i <> 10 -> i <> 12 ->
             Z.testbit (c_iflag t) i = Z.testbit (c_iflag tios) i) /\
  (forall i, 0 <= i < UINT_WIDTH -> Z.testbit CBAUD i = false -> i <> 31 ->
             Z.testbit (c_cflag t) i = Z.testbit (c_cflag tios) i).
Proof.
  cbv zeta. unfold assemble_tios, set_flow, set_baud, reset_uart, set_bits.
  assert (N : forall i, 0 <= i -> i <> 10 -> Z.testbit IXON i = false).
  { intros i Hi H10. rewrite IXON_bit, Z.pow2_bits_eqb by lia.
    destruct (Z.eqb_spec 10 i); [lia|reflexivity]. }
  assert (X : forall i, 0 <= i -> i <> 12 -> Z.testbit IXOFF i = false).
  { intros i Hi H12. rewrite IXOFF_bit, Z.pow2_bits_eqb by lia.
    destruct (Z.eqb_spec 12 i); [lia|reflexivity]. }
  assert (R : forall i, 0 <= i -> i <> 31 -> Z.testbit CRTSCTS i = false).
  { intros i Hi H31. rewrite CRTSCTS_bit, Z.pow2_bits_eqb by lia.
    destruct (Z.eqb_spec 31 i); [lia|reflexivity]. }
  assert (O : forall i, 0 <= i -> Z.testbit CBAUD i = false ->
                Z.testbit BOTHER i = false).
  { intros i Hi HC. change BOTHER with (2 ^ 12).
    rewrite Z.pow2_bits_eqb by lia.
    destruct (Z.eqb_spec 12 i) as [<-|]; [discriminate HC|reflexivity]. }
  destruct (flow =? FLOW_HW); [|destruct (flow =? FLOW_SW)];
    cbn [c_iflag c_oflag c_cflag c_lflag c_line c_cc with_cflag with_iflag
         with_speeds];
    (repeat split; try reflexivity);
    intros i [Hi Hw] Ha Hb;
    rewrite ?Z.lor_spec, ?clear_bits_bit by lia;
    rewrite ?N, ?X, ?R, ?O by (assumption || lia);
    try rewrite Ha;
    (destruct (Z.ltb_spec i UINT_WIDTH); [|lia]);
    cbn [negb andb orb]; rewrite ?andb_true_r, ?orb_false_r; reflexivity.
Qed.

(** X13.  The assembled settings differ from the baseline only in the two
    speeds, in bits 10 and 12 of the input flags (IXON, IXOFF) and in the
    CBAUD field and bit 31 (CRTSCTS) of the control flags: output flags,
    local flags, line and control characters are kept, and so is every
    other bit of the input and control flags. *)
Theorem assembled_settings_keep_the_rest tios baud flow :
  let t := assemble_tios tios baud flow in
  c_oflag t = c_oflag tios /\ c_lflag t = c_lflag tios /\
  c_line t = c_line tios /\ c_cc t = c_cc tios /\
  (forall i, 0 <= i < UINT_WIDTH -> i <> 10 -> i <> 12 ->
             Z.testbit (c_iflag t) i = Z.testbit (c_iflag tios) i) /\
  (forall i, 0 <= i < UINT_WIDTH -> Z.testbit CBAUD i = false -> i <> 31 ->
             Z.testbit (c_cflag t) i = Z.testbit (c_cflag tios) i).
Proof. exact (assemble_frame tios baud flow). Qed.

(** ICRNL (bit 8) and CREAD (bit 7) of the baseline are kept. *)
Lemma assembled_settings_keep_the_rest_witness :
  Z.testbit (c_iflag (assemble_tios cooked 115200 FLOW_HW)) 8 =
  Z.testbit (c_iflag cooked) 8 /\
  Z.testbit (c_cflag (assemble_tios cooked 115200 FLOW_HW)) 7 =
  Z.testbit (c_cflag cooked) 7.
Proof.
  destruct (assembled_settings_keep_the_rest cooked 115200 FLOW_HW)
    as (_ & _ & _ & _ & A & B).
  split.
  - apply A; [unfold UINT_WIDTH; lia|lia|lia].
  - apply B; [unfold UINT_WIDTH; lia|reflexivity|lia].
Defined.

(** ** The settings a run leaves behind *)

Lemma main_split cl m o tty name :
  parse_options (cl_opts cl) initial_options = Ok o ->
  positionals cl = Ok (tty, name) ->
  main cl (boot m) =
  match line_setup o (make_ttypath tty) (boot m) with
  | (Halt h, w1) => (Halt h, w1)
  | (Ok (fd, told), w1) =>
      ((protocol_primer o fd ;; discipline_attacher fd name ;;
        run_supervisor o) ;; teardown o fd told) w1
  end.
Proof.
  intros E0 Ep. rewrite main_unfold, E0, Ep.
  destruct (line_setup _ _ _) as [[[fd told]|h] w1]; [|reflexivity].
  apply bind_assoc3.
Qed.

Lemma snd_bind {A B : Type} (m : M A) (k : A -> M B) w :
  snd (bind m k w) =
  match m w with
  | (Ok a, w') => snd (k a w')
  | (Halt h, w') => w'
  end.
Proof. unfold bind. now destruct (m w) as [[a|h] w']. Qed.

(** X14.  However a run ends, the device is left with the settings it had
    at the start or with those assembled from them by Line Setup; no
    other settings are ever left behind. *)
Theorem run_leaves_original_or_assembled_settings cl m :
  tty_termios (run_world cl m) = m_termios m \/
  exists o,
    parse_options (cl_opts cl) initial_options = Ok o /\
    tty_termios (run_world cl m) =
    assemble_tios (m_termios m) (uart_speed o) (flow_type o).
Proof.
  rewrite run_world_main.
  destruct (parse_options (cl_opts cl) initial_options) as [o|h] eqn:E0.
  2:{ left. now rewrite main_unfold, E0. }
  destruct (positionals cl) as [[tty name]|h] eqn:Ep.
  2:{ left. now rewrite main_unfold, E0, Ep. }
  rewrite (main_split cl m o tty name E0 Ep).
  destruct (line_setup_observed o (make_ttypath tty) (boot m))
    as (O1 & O2 & _).
  destruct (line_setup o (make_ttypath tty) (boot m)) as [[[fd told]|h] w1];
    cbn [fst snd] in *.
  - destruct (setup_accepted _ _ _); [|discriminate].
    injection O1 as _ ->.
    pose proof (before_teardown_keeps_settings o fd name w1) as K.
    rewrite snd_bind.
    destruct ((protocol_primer o fd ;; _) w1) as [[[]|h] w'];
      cbn [snd] in *.
    + destruct (teardown_observed o fd (m_termios m) w') as (_ & T & _).
      rewrite T. destruct (teardown_accepted _ _ _ _); [now left|].
      right. exists o. split; [reflexivity|]. now rewrite K, O2.
    + right. exists o. split; [reflexivity|]. now rewrite K, O2.
  - destruct (setup_accepted _ _ _); [discriminate|]. now left.
Qed.

(** ** The calls of the Discipline Attacher *)

Lemma bind_SIOCGIFNAME {B : Type} fd (f : Z * string -> M B) w :
  bind (ioctl_SIOCGIFNAME fd) f w =
  f (k_ret w (List.length (k_trace w)) (Ioctl fd SIOCGIFNAME),
     if k_ret w (List.length (k_trace w)) (Ioctl fd SIOCGIFNAME) <? 0
     then EmptyString else k_ifname w)
    (with_trace w (k_trace w ++ [Ioctl fd SIOCGIFNAME])).
Proof. reflexivity. Qed.

Lemma attacher_observed fd name w :
  k_trace (snd (discipline_attacher fd name w)) =
    k_trace w ++ attacher_calls fd name w /\
  tty_ldisc (snd (discipline_attacher fd name w)) =
    (if att_attach fd w <? 0 then tty_ldisc w else N_SLCAN).
Proof.
  unfold attacher_calls, att_rename, rename_request, att_socket, att_query,
    att_attach.
  unfold discipline_attacher. rewrite bind_sys. cbn [kernel_effect].
  set (r0 := k_ret w (List.length (k_trace w)) (Ioctl fd (TIOCSETD N_SLCAN))).
  destruct (r0 <? 0); [now split|].
  rewrite bind_SIOCGIFNAME. cbv beta iota.
  cbn [k_ret k_trace with_trace with_tty_ldisc k_ifname]. rewrite !length_snoc.
  set (r1 := k_ret w (S (List.length (k_trace w))) (Ioctl fd SIOCGIFNAME)).
  destruct (r1 <? 0); [cbn; split; [now rewrite <- !app_assoc|reflexivity]|].
  destruct name as [n|];
    [|cbn; split; [now rewrite <- !app_assoc|reflexivity]].
  rewrite bind_sys.
  cbn [kernel_effect k_ret k_trace with_trace with_tty_ldisc k_ifname].
  rewrite !length_snoc.
  set (s := k_ret w (S (S (List.length (k_trace w)))) Socket).
  destruct (s <? 0); [cbn; split; [now rewrite <- !app_assoc|reflexivity]|].
  rewrite bind_sys.
  cbn [kernel_effect k_ret k_trace with_trace with_tty_ldisc k_ifname].
  rewrite !length_snoc.
  set (r3 := k_ret w (S (S (S (List.length (k_trace w))))) _).
  destruct (r3 <? 0); [cbn; split; [now rewrite <- !app_assoc|reflexivity]|].
  rewrite bind_sys. cbn. split; [now rewrite <- !app_assoc|reflexivity].
Qed.

Lemma positionals_name cl tty n :
  positionals cl = Ok (tty, Some n) ->
  nth_error (cl_args cl) 1 = Some n /\ substring 0 (IFNAMSIZ - 1) n = n.
Proof.
  unfold positionals, print_usage.
  destruct (nth_error (cl_args cl) 0) as [t|]; [|discriminate].
  destruct (nth_error (cl_args cl) 1) as [n'|]; [|discriminate].
  destruct (Z.ltb_spec (Z.of_nat IFNAMSIZ - 1) (strlen n')); [discriminate|].
  intros [= -> ->]. split; [reflexivity|].
  apply substring_all. unfold strlen, IFNAMSIZ in *. lia.
Qed.

Lemma positionals_no_name cl tty :
  positionals cl = Ok (tty, None) -> nth_error (cl_args cl) 1 = None.
Proof.
  unfold positionals, print_usage.
  destruct (nth_error (cl_args cl) 0) as [t|]; [|discriminate].
  destruct (nth_error (cl_args cl) 1) as [n'|]; [|reflexivity].
  destruct (_ <? _); discriminate.
Qed.

Lemma line_setup_keeps_ifname o path : preserves k_ifname (line_setup o path).
Proof.
  unfold line_setup, ioctl_TCGETS2, ioctl_TIOCGSERIAL.
  apply pr_bind; [pr_call|intros fd].
  destruct (fd <? 0); [apply pr_exit|].
  apply pr_bind; [apply pr_read; pr_call|intros [r1 t1]].
  destruct (r1 <? 0); [apply pr_exit|].
  apply pr_bind; [apply pr_read; pr_call|intros [r2 t2]].
  destruct (r2 <? 0); [apply pr_exit|].
  apply pr_bind; [apply pr_read; pr_call|intros [r3 f3]].
  apply pr_bind; [pr_call|intros r4].
  apply pr_bind; [pr_call|intros r5].
  destruct (r5 <? 0); [|apply pr_ret].
  apply pr_bind; [pr_call|intros _]. apply pr_exit.
Qed.

Section RenameCalls.

Variables (ifn : string) (name : option string).

Lemma cs_line_setup_rename o path : calls_satisfy (rename_of ifn name) (line_setup o path).
Proof.
  unfold line_setup, ioctl_TCGETS2, ioctl_TIOCGSERIAL. cs ltac:(exact I).
Qed.

Lemma cs_protocol_primer_rename o fd : calls_satisfy (rename_of ifn name) (protocol_primer o fd).
Proof. unfold protocol_primer, write_or_die. cs ltac:(exact I). Qed.

Lemma cs_run_supervisor_rename o : calls_satisfy (rename_of ifn name) (run_supervisor o).
Proof. unfold run_supervisor, signal, set_running. cs ltac:(exact I). Qed.

Lemma cs_teardown_rename o fd told : calls_satisfy (rename_of ifn name) (teardown o fd told).
Proof.
  unfold teardown, get_exit_code, write_or_die. cs ltac:(exact I).
Qed.

Lemma attacher_rename fd w :
  k_ifname w = ifn ->
  (forall n, name = Some n -> substring 0 (IFNAMSIZ - 1) n = n) ->
  exists d,
    k_trace (snd (discipline_attacher fd name w)) = k_trace w ++ d /\
    Forall (rename_of ifn name) d.
Proof.
  intros Hi Hn. destruct (attacher_observed fd name w) as [T _].
  exists (attacher_calls fd name w). split; [exact T|].
  unfold attacher_calls, rename_request.
  destruct (_ <? 0); [repeat constructor|].
  apply Forall_app. split; [repeat constructor|].
  destruct (_ <? 0); [constructor|].
  destruct name as [n|]; [|constructor].
  rewrite (Hn n eq_refl), Hi.
  assert (S0 : rename_of ifn (Some n) Socket) by (cbn; discriminate).
  assert (R0 : forall s, rename_of ifn (Some n) (Ioctl s (SIOCSIFNAME ifn n))) by (now cbn).
  destruct (_ <? 0); [now repeat constructor|].
  destruct (_ <? 0); repeat constructor; auto.
Qed.

End RenameCalls.

(** X15.  In any run, every rename request carries the interface name the
    kernel reported and, as new name, the second positional argument
    unchanged; the socket for the rename is created only when that
    argument is present. *)
Theorem rename_uses_kernel_name_and_argument cl m :
  Forall (rename_of (m_ifname m) (nth_error (cl_args cl) 1))
         (run_trace cl m).
Proof.
  rewrite run_trace_main, main_unfold.
  destruct (parse_options (cl_opts cl) initial_options) as [o|h];
    [|constructor].
  destruct (positionals cl) as [[tty name]|h] eqn:Ep; [|constructor].
  assert (Hname : nth_error (cl_args cl) 1 = name).
  { destruct name as [n|].
    - now apply positionals_name in Ep.
    - now apply positionals_no_name in Ep. }
  rewrite Hname.
  set (P := rename_of (m_ifname m) name).
  destruct (cs_line_setup_rename (m_ifname m) name o (make_ttypath tty) (boot m))
    as (d1 & T1 & F1).
  pose proof (line_setup_keeps_ifname o (make_ttypath tty) (boot m)) as I1.
  destruct (line_setup o (make_ttypath tty) (boot m)) as [[[fd told]|h] w1];
    cbn [snd] in *; [|now rewrite T1].
  rewrite snd_bind.
  destruct (cs_protocol_primer_rename (m_ifname m) name o fd w1)
    as (d2 & T2 & F2).
  pose proof (pr_protocol_primer k_ifname (fun _ _ => eq_refl) o fd w1) as I2.
  destruct (protocol_primer o fd w1) as [[[]|h] w2]; cbn [snd] in *.
  2:{ rewrite T2, T1. apply Forall_app. now split. }
  rewrite snd_bind.
  destruct (attacher_rename (m_ifname m) name fd w2) as (d3 & T3 & F3).
  { now rewrite I2, I1. }
  { intros n ->. now apply positionals_name in Ep. }
  destruct (discipline_attacher fd name w2) as [[[]|h] w3]; cbn [snd] in *.
  2:{ rewrite T3, T2, T1. rewrite !Forall_app. now repeat split. }
  assert (X : calls_satisfy P (run_supervisor o ;; teardown o fd told)).
  { apply cs_bind; [apply cs_run_supervisor_rename|intros _].
    apply cs_teardown_rename. }
  destruct (X w3) as (d4 & T4 & F4).
  rewrite T4, T3, T2, T1. rewrite !Forall_app. now repeat split.
Qed.

Lemma attacher_status fd name w :
  fst (discipline_attacher fd name w) =
  if attacher_accepted fd name w then Ok tt else Halt (Exited EXIT_FAILURE).
Proof.
  unfold attacher_accepted, att_rename, rename_request, att_socket, att_query,
    att_attach.
  unfold discipline_attacher. rewrite bind_sys. cbn [kernel_effect].
  set (r0 := k_ret w (List.length (k_trace w)) (Ioctl fd (TIOCSETD N_SLCAN))).
  destruct (Z.ltb_spec r0 0); destruct (Z.leb_spec 0 r0); try lia;
    [reflexivity|]. cbn [andb].
  rewrite bind_SIOCGIFNAME. cbv beta iota.
  cbn [k_ret k_trace with_trace with_tty_ldisc k_ifname]. rewrite !length_snoc.
  set (r1 := k_ret w (S (List.length (k_trace w))) (Ioctl fd SIOCGIFNAME)).
  destruct (Z.ltb_spec r1 0); destruct (Z.leb_spec 0 r1); try lia;
    [reflexivity|]. cbn [andb].
  destruct name as [n|]; [|reflexivity].
  rewrite bind_sys.
  cbn [kernel_effect k_ret k_trace with_trace with_tty_ldisc k_ifname].
  rewrite !length_snoc.
  set (s := k_ret w (S (S (List.length (k_trace w)))) Socket).
  destruct (s <? 0); [reflexivity|]. cbn [orb].
  rewrite bind_sys.
  cbn [kernel_effect k_ret k_trace with_trace with_tty_ldisc k_ifname].
  rewrite !length_snoc.
  set (r3 := k_ret w (S (S (S (List.length (k_trace w))))) _).
  destruct (Z.ltb_spec r3 0); destruct (Z.leb_spec 0 r3); try lia;
    reflexivity.
Qed.

(** X16.  The Discipline Attacher attaches, queries the name and, when a
    rename is requested, creates the socket, sends the request and closes
    the socket, stopping at the first failure; a failed rename request
    leaves the socket open.  It ends the process with status 1 unless
    attach and query succeed and the rename does not fail on an existing
    socket.  The device carries N_SLCAN once the attach succeeds. *)
Theorem attacher_calls_in_order fd name w :
  fst (discipline_attacher fd name w) =
    (if attacher_accepted fd name w then Ok tt
     else Halt (Exited EXIT_FAILURE)) /\
  k_trace (snd (discipline_attacher fd name w)) =
    k_trace w ++ attacher_calls fd name w /\
  tty_ldisc (snd (discipline_attacher fd name w)) =
    (if att_attach fd w <? 0 then tty_ldisc w else N_SLCAN).
Proof.
  split; [apply attacher_status|apply attacher_observed].
Qed.

(** ** The calls of a run that returns *)

Lemma deliver_all_Ok_trace batch w w' :
  deliver_all batch w = (Ok tt, w') -> k_trace w' = k_trace w.
Proof.
  intros E. destruct (cs_deliver_all (fun _ => False) batch w) as (d & T & F).
  rewrite E in T. cbn [snd] in T. destruct d as [|c d].
  - now rewrite app_nil_r in T.
  - inversion F; contradiction.
Qed.

Lemma big_loop_Ok_sleeps pending : forall w w',
  slcand_running w <> 0 ->
  big_loop pending w = (Ok tt, w') ->
  exists k, k_trace w' = k_trace w ++ repeat Sleep (S k).
Proof.
  induction pending as [|batch later IH]; intros w w' R E.
  - cbn [big_loop] in E. unfold truthy in E.
    destruct (Z.eqb_spec (slcand_running w) 0); [contradiction|discriminate].
  - rewrite big_loop_step in E by assumption.
    rewrite bind_sys in E. cbn [kernel_effect] in E.
    unfold bind at 1 in E.
    destruct (deliver_all batch _) as [[[]|h] w1] eqn:D; [|discriminate].
    apply deliver_all_Ok_trace in D. cbn [k_trace with_trace] in D.
    destruct (Z.eq_dec (slcand_running w1) 0) as [R1|R1].
    + rewrite big_loop_done in E by assumption. injection E as <-.
      exists 0%nat. exact D.
    + destruct (IH w1 w' R1 E) as [k T]. exists (S k).
      rewrite T, D, <- app_assoc. reflexivity.
Qed.

Lemma run_supervisor_Ok_trace o w w' :
  handlers w = [] ->
  run_supervisor o w = (Ok tt, w') ->
  run_as_daemon o = 0 /\
  exists k,
    k_trace w' =
    k_trace w ++ [Signal SIGINT; Signal SIGTERM] ++ repeat Sleep (S k).
Proof.
  intros H E.
  destruct (truthy (run_as_daemon o)) eqn:D.
  - destruct (run_supervisor_background o w D H) as [h Eh].
    rewrite E in Eh. discriminate.
  - assert (D0 : run_as_daemon o = 0).
    { unfold truthy in D. now destruct (Z.eqb_spec (run_as_daemon o) 0). }
    split; [exact D0|].
    rewrite (run_supervisor_foreground o w D0) in E.
    apply big_loop_Ok_sleeps in E; [|cbn; discriminate].
    destruct E as [k T]. exists k. rewrite T. cbn [k_trace with_running with_handlers with_trace].
    now rewrite <- app_assoc.
Qed.

Lemma attacher_Ok_calls fd name w w' :
  (forall n, name = Some n -> substring 0 (IFNAMSIZ - 1) n = n) ->
  discipline_attacher fd name w = (Ok tt, w') ->
  exists d,
    k_trace w' =
      k_trace w ++ [Ioctl fd (TIOCSETD N_SLCAN); Ioctl fd SIOCGIFNAME] ++ d /\
    rename_calls (k_ifname w) name d.
Proof.
  intros Hn E.
  pose proof (attacher_status fd name w) as S0.
  destruct (attacher_observed fd name w) as [T _].
  rewrite E in S0, T. cbn [fst snd] in S0, T.
  unfold attacher_accepted in S0. unfold attacher_calls, rename_request in T.
  destruct (Z.leb_spec 0 (att_attach fd w)) as [A|A]; [|discriminate].
  destruct (Z.leb_spec 0 (att_query fd w)) as [Q|Q]; [|discriminate].
  destruct (Z.ltb_spec (att_attach fd w) 0); [lia|].
  destruct (Z.ltb_spec (att_query fd w) 0); [lia|].
  eexists. split; [exact T|].
  destruct name as [n|]; cbn [rename_calls]; [|reflexivity].
  rewrite (Hn n eq_refl) in *.
  destruct (att_socket w <? 0); [now left|]. cbn [orb] in S0.
  destruct (Z.leb_spec 0 (att_rename n w)) as [R|R]; [|discriminate].
  destruct (Z.ltb_spec (att_rename n w) 0); [lia|].
  right. now eexists.
Qed.

Lemma teardown_Ok_calls o fd told w st w' :
  teardown o fd told w = (Ok st, w') ->
  k_trace w' =
  k_trace w ++ [Ioctl fd (TIOCSETD N_TTY)] ++
  (if truthy (send_close o) then [Write fd close_command] else []) ++
  [Ioctl fd (TCSETS2 told)].
Proof.
  intros E. destruct (teardown_observed o fd told w) as (S0 & _ & T).
  rewrite E in S0, T. cbn [fst snd] in S0, T. rewrite T. f_equal.
  unfold teardown_accepted in S0. unfold teardown_calls.
  destruct (Z.leb_spec 0 (td_reset fd w)); [|discriminate].
  destruct (Z.ltb_spec (td_reset fd w) 0); [lia|].
  destruct (truthy (send_close o)); [|reflexivity].
  cbn [negb orb andb] in S0.
  destruct (Z.ltb_spec 0 (td_close fd w)); [|discriminate].
  destruct (Z.leb_spec (td_close fd w) 0); [lia|reflexivity].
Qed.

(** X17.  A run that reaches the final return of [main] ran in foreground
    mode and its recorded calls are exactly these, in this order: open, two TCGETS2,
    TIOCGSERIAL, TIOCSSERIAL, TCSETS2 with the assembled settings, the
    writes of the primer, attach, name query, the rename calls, the two
    handler installations, at least one sleep, the discipline reset, the
    close command when [-c] was given, and TCSETS2 with the original
    settings. *)
Theorem returning_run_protocol cl m st :
  run_end cl m = Returned st ->
  exists o tty name fd flags bufs rename k,
    parse_options (cl_opts cl) initial_options = Ok o /\
    positionals cl = Ok (tty, name) /\
    run_as_daemon o = 0 /\
    joined bufs = wire (primer_commands o) /\
    rename_calls (m_ifname m) name rename /\
    run_trace cl m =
      [Open (make_ttypath tty); Ioctl fd TCGETS2; Ioctl fd TCGETS2;
       Ioctl fd TIOCGSERIAL; Ioctl fd (TIOCSSERIAL flags);
       Ioctl fd (TCSETS2 (assemble_tios (m_termios m) (uart_speed o)
                                        (flow_type o)))] ++
      map (Write fd) bufs ++
      [Ioctl fd (TIOCSETD N_SLCAN); Ioctl fd SIOCGIFNAME] ++ rename ++
      [Signal SIGINT; Signal SIGTERM] ++ repeat Sleep (S k) ++
      [Ioctl fd (TIOCSETD N_TTY)] ++
      (if truthy (send_close o) then [Write fd close_command] else []) ++
      [Ioctl fd (TCSETS2 (m_termios m))].
Proof.
  intros E. apply run_Returned in E.
  unfold run_trace. fold (run_world cl m).
  apply main_Ok in E
    as (o & tty & name & fd & told & w1 & w2 & w3 & w4
        & E0 & Ep & E1 & E2 & E3 & E4 & E5).
  pose proof (line_setup_keeps_ifname o (make_ttypath tty) (boot m)) as I1.
  rewrite E1 in I1. cbn [snd] in I1.
  destruct (orderly_line_setup _ _ _ _ _ E1) as ([H1 _ _ _] & _).
  apply line_setup_Ok in E1 as (-> & _ & f & T1).
  destruct (protocol_primer_writes o fd) as (bs & W & J).
  destruct (W w1) as (_ & (bufs & T2 & J2) & _).
  pose proof (pr_protocol_primer k_ifname (fun _ _ => eq_refl) o fd w1) as I2.
  destruct (orderly_protocol_primer _ _ _ _ _ E2) as ([H2 _ _ _] & _).
  rewrite E2 in T2, J2, I2. cbn [fst snd] in T2, J2, I2.
  specialize (J2 eq_refl). subst bufs.
  destruct (orderly_discipline_attacher _ _ _ _ _ E3) as ([H3 _ _ _] & _).
  apply attacher_Ok_calls in E3 as (d3 & T3 & R3).
  2:{ intros n ->. now apply positionals_name in Ep. }
  apply run_supervisor_Ok_trace in E4 as (D & k & T4);
    [|rewrite H3, H2, H1; reflexivity].
  apply teardown_Ok_calls in E5.
  exists o, tty, name, fd, (set_bits f ASYNC_LOW_LATENCY), bs, d3, k.
  split; [exact E0|]. split; [exact Ep|]. split; [exact D|].
  split; [exact J|]. split.
  - rewrite I2, I1 in R3. exact R3.
  - rewrite E5, T4, T3, T2, T1. cbn [boot k_trace tty_termios].
    rewrite <- !app_assoc. reflexivity.
Qed.

(** The run [-F ttyUSB0 can0] interrupted during the first sleep. *)
Lemma returning_run_protocol_witness :
  run_end renaming (pc [[SIGINT]]) = Returned 130 /\
  exists rest,
    run_trace renaming (pc [[SIGINT]]) = Open "/dev/ttyUSB0" :: rest.
Proof.
  assert (E : run_end renaming (pc [[SIGINT]]) = Returned 130)
    by reflexivity.
  split; [exact E|].
  destruct (returning_run_protocol renaming (pc [[SIGINT]]) 130 E)
    as (o & tty & name & fd & flags & bufs & rename & k & _ & P & _ & _ & _
        & T).
  injection P as <- _. eexists. exact T.
Defined.

(** ** Runs that do not return *)

(** X18.  A run that ends in any other way than by the final return of
    [main] (a fatal error, a signal that kills, or waiting for ever)
    leaves the device as Line Setup left it: with the assembled settings
    when Line Setup applied them, and the original ones otherwise.  The
    snapshot is restored by returning runs only. *)
Theorem unfinished_run_never_restores cl m o tty name :
  parse_options (cl_opts cl) initial_options = Ok o ->
  positionals cl = Ok (tty, name) ->
  (forall st, run_end cl m <> Returned st) ->
  tty_termios (run_world cl m) =
    (if setup_accepted o (make_ttypath tty) (boot m)
     then assemble_tios (m_termios m) (uart_speed o) (flow_type o)
     else m_termios m).
Proof.
  intros E0 Ep HR. unfold run_end, run in HR. rewrite run_world_main.
  rewrite (main_split cl m o tty name E0 Ep) in *.
  destruct (line_setup_observed o (make_ttypath tty) (boot m))
    as (O1 & O2 & _).
  destruct (line_setup o (make_ttypath tty) (boot m)) as [[[fd told]|h] w1];
    cbn [fst snd] in *.
  - destruct (setup_accepted _ _ _); [|discriminate].
    injection O1 as _ ->.
    pose proof (before_teardown_keeps_settings o fd name w1) as K.
    rewrite snd_bind. unfold bind at 1 in HR.
    destruct ((protocol_primer o fd ;; _) w1) as [[[]|h] w'];
      cbn [snd] in *; [|now rewrite K, O2].
    destruct (teardown_observed o fd (m_termios m) w') as (F & T & _).
    rewrite T.
    destruct (teardown o fd (m_termios m) w') as [r w2]. cbn [fst] in *.
    destruct (teardown_accepted _ _ _ _).
    + subst r. cbn [fst] in HR. now destruct (HR (exit_code w')).
    + now rewrite K, O2.
  - destruct (setup_accepted _ _ _); [discriminate|]. exact O2.
Qed.

(** The foreground run whose attach fails. *)
Lemma unfinished_run_never_restores_witness :
  run_end foreground (pc_failing is_attach [[SIGINT]])
    = Stopped (Exited EXIT_FAILURE) /\
  tty_termios (run_world foreground (pc_failing is_attach [[SIGINT]]))
    = assemble_tios cooked 0 FLOW_NONE.
Proof.
  assert (E : run_end foreground (pc_failing is_attach [[SIGINT]])
              = Stopped (Exited EXIT_FAILURE)) by reflexivity.
  split; [exact E|].
  apply (unfinished_run_never_restores
           foreground (pc_failing is_attach [[SIGINT]])
           (options_of (cl_opts foreground)) "ttyUSB0" None
           eq_refl eq_refl).
  intros st H. rewrite E in H. discriminate.
Defined.

(** ** The exit status *)










